(** * OdooFileFormatter: the data transformer

    A shallow embedding of [src/data_transformer.py] (class
    [DataTransformer]) together with the properties its specification
    states about it.

    The Python class works on pandas data frames.  The embedding keeps the
    parts of pandas, numpy and [decimal] the class relies on:

    - a Python [str] is its UTF-8 encoding, the characters [str.strip]
      removes being the Unicode whitespace;
    - a cell is a Python [str], a binary64 float, [None] or [pd.NA], and
      the missing cell of the pandas readers is the float NaN;
      [astype(str)] turns it into the text
      "nan", which is the behaviour (pandas before 3.0) that the
      [replace('nan', '')] of the class is written for;
    - numbers are IEEE 754 binary64 values ([spec_float], precision 53),
      with correctly rounded multiplication and division;
    - [Series.round] is numpy's [rint (x * 10^d) / 10^d];
    - [Decimal] values are sign, coefficient and exponent, with the default
      context (precision 28, [Emax] 999999);
    - a raising Python call returns [Raise] in the [outcome] type. *)

From Stdlib Require Import ZArith NArith List String Ascii Bool Lia.
From Stdlib Require Import DecimalString.
From Stdlib Require Import Floats.SpecFloat.
Import ListNotations.

Local Open Scope string_scope.
Local Open Scope Z_scope.

(** ** Python outcomes *)

Inductive exn : Type :=
| IndexError
| InvalidOperation
| ValueError.

Inductive outcome (A : Type) : Type :=
| Ok (a : A)
| Raise (e : exn).

Arguments Ok {A} a.
Arguments Raise {A} e.

Definition bind {A B : Type} (m : outcome A) (k : A -> outcome B) : outcome B :=
  match m with
  | Ok a => k a
  | Raise e => Raise e
  end.

Notation "x <- m ;; k" := (bind m (fun x => k))
  (at level 61, m at next level, right associativity).

Definition is_ok {A : Type} (m : outcome A) : bool :=
  match m with Ok _ => true | Raise _ => false end.

(** ** Binary64 arithmetic *)

Module F64.

Definition prec : Z := 53.
Definition emax : Z := 1024.

Definition float : Type := spec_float.

Definition nan : float := S754_nan.
Definition zero : float := S754_zero false.

Definition is_nan (x : float) : bool :=
  match x with S754_nan => true | _ => false end.

Definition mul : float -> float -> float := SFmul prec emax.
Definition div : float -> float -> float := SFdiv prec emax.
Definition ltb : float -> float -> bool := SFltb.

(** The float nearest to an integer. *)
Definition of_Z (n : Z) : float := binary_normalize prec emax n 0 false.

(** The float nearest to [(-1)^s * c * 10^e]: what [float(str)] gives for
    a decimal literal. *)
Definition of_decimal (s : bool) (c : N) (e : Z) : float :=
  match c with
  | Npos p =>
      if 0 <=? e
      then binary_normalize prec emax (cond_Zopp s (Zpos p * 10 ^ e)) 0 s
      else div (S754_finite s p 0)
               (S754_finite false (Z.to_pos (10 ^ (- e))) 0)
  | N0 => S754_zero s
  end.

(** [m / 2^k] rounded to the nearest integer, ties to the even one. *)
Definition round_half_even (m k : Z) : Z :=
  let q := m / 2 ^ k in
  let r := m mod 2 ^ k in
  match 2 * r ?= 2 ^ k with
  | Lt => q
  | Gt => q + 1
  | Eq => if Z.even q then q else q + 1
  end.

(** C's [rint] in the default rounding mode. *)
Definition rint (x : float) : float :=
  match x with
  | S754_finite s m e =>
      if 0 <=? e then x
      else binary_normalize prec emax
             (cond_Zopp s (round_half_even (Zpos m) (- e))) 0 s
  | _ => x
  end.

Definition power_of_ten (n : Z) : float := of_Z (10 ^ n).

(** numpy's [round] on a float array: multiply, [rint], divide (and the
    other way round for negative [decimals]). *)
Definition round (x : float) (decimals : Z) : float :=
  if 0 <=? decimals then
    if decimals =? 0 then rint x
    else div (rint (mul x (power_of_ten decimals))) (power_of_ten decimals)
  else
    mul (rint (div x (power_of_ten (- decimals)))) (power_of_ten (- decimals)).

End F64.

(** ** Python strings *)

Module PyStr.

(** A Python [str] is modelled by its UTF-8 encoding. *)

(** [str.isspace] on a character of one byte: U+0009 to U+000D, U+001C to
    U+001F and U+0020. *)
Definition is_space (c : ascii) : bool :=
  let n := N_of_ascii c in
  (((9 <=? n) && (n <=? 13)) || ((28 <=? n) && (n <=? 32)))%N.

(** On a character of two bytes: U+0085 and U+00A0. *)
Definition is_space2 (c1 c2 : ascii) : bool :=
  let b1 := N_of_ascii c1 in
  let b2 := N_of_ascii c2 in
  ((b1 =? 194) && ((b2 =? 133) || (b2 =? 160)))%N.

(** On a character of three bytes: U+1680, U+2000 to U+200A, U+2028,
    U+2029, U+202F, U+205F and U+3000. *)
Definition is_space3 (c1 c2 c3 : ascii) : bool :=
  let b1 := N_of_ascii c1 in
  let b2 := N_of_ascii c2 in
  let b3 := N_of_ascii c3 in
  (((b1 =? 225) && (b2 =? 154) && (b3 =? 128))
   || ((b1 =? 226) && (b2 =? 128)
       && (((128 <=? b3) && (b3 <=? 138))
           || (b3 =? 168) || (b3 =? 169) || (b3 =? 175)))
   || ((b1 =? 226) && (b2 =? 129) && (b3 =? 159))
   || ((b1 =? 227) && (b2 =? 128) && (b3 =? 128)))%N.

(** What follows the whitespace character a string starts with, if any. *)
Definition space_prefix (s : string) : option string :=
  match s with
  | String c1 r1 =>
      if is_space c1 then Some r1
      else
        match r1 with
        | String c2 r2 =>
            if is_space2 c1 c2 then Some r2
            else
              match r2 with
              | String c3 r3 => if is_space3 c1 c2 c3 then Some r3 else None
              | EmptyString => None
              end
        | EmptyString => None
        end
  | EmptyString => None
  end.

Fixpoint lstrip (s : string) : string :=
  match s with
  | String c1 r1 =>
      if is_space c1 then lstrip r1
      else
        match r1 with
        | String c2 r2 =>
            if is_space2 c1 c2 then lstrip r2
            else
              match r2 with
              | String c3 r3 => if is_space3 c1 c2 c3 then lstrip r3 else s
              | EmptyString => s
              end
        | EmptyString => s
        end
  | EmptyString => EmptyString
  end.

(** The string holds whitespace characters only. *)
Definition all_space (s : string) : bool :=
  match lstrip s with
  | EmptyString => true
  | String _ _ => false
  end.

(** The longest suffix of whitespace characters is removed. *)
Fixpoint rstrip (s : string) : string :=
  match s with
  | String c r => if all_space s then EmptyString else String c (rstrip r)
  | EmptyString => EmptyString
  end.

Definition strip (s : string) : string := rstrip (lstrip s).

Fixpoint join (sep : string) (l : list string) : string :=
  match l with
  | [] => ""
  | [x] => x
  | x :: r => x ++ sep ++ join sep r
  end.

Fixpoint startswith (p s : string) : bool :=
  match p, s with
  | EmptyString, _ => true
  | String a p', String b s' => Ascii.eqb a b && startswith p' s'
  | String _ _, EmptyString => false
  end.

Definition lower_char (c : ascii) : ascii :=
  let n := N_of_ascii c in
  if ((65 <=? n) && (n <=? 90))%N then ascii_of_N (n + 32) else c.

Fixpoint lower (s : string) : string :=
  match s with
  | String c r => String (lower_char c) (lower r)
  | EmptyString => EmptyString
  end.

Fixpoint remove_char (x : ascii) (s : string) : string :=
  match s with
  | String c r => if Ascii.eqb c x then remove_char x r else String c (remove_char x r)
  | EmptyString => EmptyString
  end.

Definition is_digit (c : ascii) : bool :=
  let n := N_of_ascii c in ((48 <=? n) && (n <=? 57))%N.

Definition digit_value (c : ascii) : N := (N_of_ascii c - 48)%N.

(** The longest prefix of digits: its value, its length and what follows. *)
Fixpoint digits_from (acc : N) (len : Z) (s : string) : N * Z * string :=
  match s with
  | String c r =>
      if is_digit c then digits_from (10 * acc + digit_value c)%N (len + 1) r
      else (acc, len, s)
  | EmptyString => (acc, len, s)
  end.

Definition digits (s : string) : N * Z * string := digits_from 0%N 0 s.

Fixpoint all_digits (s : string) : bool :=
  match s with
  | String c r => is_digit c && all_digits r
  | EmptyString => true
  end.

Definition of_N (n : N) : string := NilZero.string_of_uint (N.to_uint n).

End PyStr.

(** ** Python's [decimal.Decimal] in the default context *)

Module PyDecimal.

Inductive decimal : Type :=
| Finite (sign : bool) (coeff : N) (exp : Z)
| Infinity (sign : bool)
| NaN (sign : bool) (signaling : bool).

Definition prec : Z := 28.
Definition Emax : Z := 999999.
Definition Emin : Z := -999999.
Definition Etiny : Z := Emin - prec + 1.

(** [len(self._int)]: the number of digits of the coefficient. *)
Definition ndigits (c : N) : Z := Z.of_nat (Decimal.nb_digits (N.to_uint c)).

(** [self.adjusted()] of a finite value. *)
Definition adjusted (c : N) (e : Z) : Z := e + ndigits c - 1.

Definition parse_sign (s : string) : bool * string :=
  match s with
  | String "-" r => (true, r)
  | String "+" r => (false, r)
  | _ => (false, s)
  end.

Definition parse_exponent (s : string) : option Z :=
  match s with
  | EmptyString => Some 0
  | String c r =>
      if Ascii.eqb (PyStr.lower_char c) "e" then
        let (neg, r1) := parse_sign r in
        let '(v, n, rest) := PyStr.digits r1 in
        if (0 <? n) && (rest =? "")%string
        then Some (cond_Zopp neg (Z.of_N v))
        else None
      else None
  end.

Definition parse_special (sign : bool) (s : string) : option decimal :=
  let l := PyStr.lower s in
  if ((l =? "inf") || (l =? "infinity"))%string then Some (Infinity sign)
  else
    match l with
    | String "n" (String "a" (String "n" d)) =>
        if PyStr.all_digits d then Some (NaN sign false) else None
    | String "s" (String "n" (String "a" (String "n" d))) =>
        if PyStr.all_digits d then Some (NaN sign true) else None
    | _ => None
    end.

(** [Decimal(s)] for a string [s]: surrounding whitespace and underscores
    are removed, then the literal is a sign, digits with an optional
    fraction and exponent, or a special value. *)
Definition of_string (s : string) : outcome decimal :=
  let t := PyStr.remove_char "_" (PyStr.strip s) in
  let (sign, body) := parse_sign t in
  let '(ip, ni, r1) := PyStr.digits body in
  let '(fp, nf, r2) :=
    match r1 with
    | String "." r => PyStr.digits r
    | _ => (0%N, 0, r1)
    end in
  if 0 <? ni + nf then
    match parse_exponent r2 with
    | Some x => Ok (Finite sign (ip * 10 ^ Z.to_N nf + fp)%N (x - nf))
    | None => Raise InvalidOperation
    end
  else
    match parse_special sign body with
    | Some d => Ok d
    | None => Raise InvalidOperation
    end.

(** [_rescale(exp, ROUND_HALF_UP)] of a nonzero finite value: pad with
    zeros, or cut the coefficient and add one when the first digit cut
    off is 5 or more. *)
Definition rescale_half_up (c : N) (x e : Z) : N :=
  if e <=? x then (c * 10 ^ Z.to_N (x - e))%N
  else
    let k := Z.to_N (e - x) in
    let kept := (c / 10 ^ k)%N in
    let first_cut := ((c / 10 ^ (k - 1)) mod 10)%N in
    if (5 <=? first_cut)%N then (kept + 1)%N else kept.

(** [self.quantize(Decimal((0, (0,), e)), rounding=ROUND_HALF_UP)]. *)
Definition quantize_half_up (d : decimal) (e : Z) : outcome decimal :=
  match d with
  | NaN _ true => Raise InvalidOperation
  | NaN _ false => Ok d
  | Infinity _ => Raise InvalidOperation
  | Finite s c x =>
      if negb ((Etiny <=? e) && (e <=? Emax)) then Raise InvalidOperation
      else if (c =? 0)%N then Ok (Finite s 0 e)
      else if Emax <? adjusted c x then Raise InvalidOperation
      else if prec <? adjusted c x - e + 1 then Raise InvalidOperation
      else
        let c' := rescale_half_up c x e in
        if Emax <? adjusted c' e then Raise InvalidOperation
        else if prec <? ndigits c' then Raise InvalidOperation
        else Ok (Finite s c' e)
  end.

(** [float(d)]. *)
Definition to_float (d : decimal) : outcome F64.float :=
  match d with
  | Finite s c e => Ok (F64.of_decimal s c e)
  | Infinity s => Ok (S754_infinity s)
  | NaN _ true => Raise ValueError
  | NaN _ false => Ok F64.nan
  end.

End PyDecimal.

(** ** Stand-ins for the runtime's conversions

    The transformer is verified for every float-to-text conversion, every
    text-to-float parser of [pandas.to_numeric] and every [repr] of a
    string.  The instances below are used to run it on examples. *)

Module Reference.

(** The decimal expansion of a finite float, which is exact and finite. *)
Definition float_repr (x : F64.float) : string :=
  match x with
  | S754_finite s m e =>
      let sign := if s then "-" else "" in
      if 0 <=? e then sign ++ PyStr.of_N (Npos m * 2 ^ Z.to_N e) ++ ".0"
      else
        let k := Z.to_N (- e) in
        let n := (Npos m * 5 ^ k)%N in
        let frac := PyStr.of_N (10 ^ k + n mod 10 ^ k)%N in
        sign ++ PyStr.of_N (n / 10 ^ k)
             ++ "." ++ match frac with String _ r => r | EmptyString => "" end
  | _ => ""
  end.

(** Decimal literals, read to the nearest float. *)
Definition to_double (s : string) : option F64.float :=
  match PyDecimal.of_string s with
  | Ok (PyDecimal.Finite sg c e) => Some (F64.of_decimal sg c e)
  | Ok (PyDecimal.Infinity sg) => Some (S754_infinity sg)
  | Ok (PyDecimal.NaN _ _) => Some F64.nan
  | Raise _ => None
  end.

(** [repr] of a string without quotes, backslashes or control characters. *)
Definition str_repr (s : string) : string := "'" ++ s ++ "'".

End Reference.

(** ** Source tables *)

(** The null objects an object column can hold besides NaN. *)
Inductive null : Type :=
| PyNone
| PdNA.

(** A cell of the source table: a string, a number or a null object.  The
    missing cell that the pandas readers put in an empty cell is the float
    NaN. *)
Inductive cell : Type :=
| Text (s : string)
| Number (x : F64.float)
| Null (k : null).

Definition Missing : cell := Number F64.nan.

(** [pd.isna] on a scalar. *)
Definition isna (c : cell) : bool :=
  match c with
  | Number x => F64.is_nan x
  | Text _ => false
  | Null _ => true
  end.

(** The source data frame: [ncols] is [len(df.columns)] and [len(df)] is
    the number of rows.  Its index is the default one, [0 .. len(df) - 1],
    which is also the index of the result frame, so that a column assigned
    to the result, aligned by pandas on the index labels, is paired with
    the rows by position.  A row that is shorter than [ncols] reads as
    missing beyond its end. *)
Record DataFrame : Type := mkDataFrame {
  ncols : nat;
  rows : list (list cell)
}.

(** [df.iloc[:, i]]: a position counts from the end when negative, and one
    outside [-ncols, ncols) raises. *)
Definition iloc_column (df : DataFrame) (i : Z) : outcome (list cell) :=
  let n := Z.of_nat (ncols df) in
  if (i <? - n) || (n <=? i) then Raise IndexError
  else
    let j := Z.to_nat (if i <? 0 then i + n else i) in
    Ok (map (fun r => nth j r Missing) (rows df)).

(** ** The Odoo product template *)

(** One row of the result frame, a field per entry of [odoo_columns].
    [None] and the float NaN are the undefined value of a column. *)
Record odoo_row : Type := mkRow {
  Internal_Reference : option string;
  Name : option string;
  Can_be_Sold : option bool;
  Can_be_Purchased : option bool;
  Product_Type : option string;
  Category : option string;
  Sale_Price : F64.float;
  Cost : F64.float;
  Quantity_On_Hand : F64.float;
  Weight : option string;
  Volume : option string;
  Barcode : option string;
  Description_for_Quotations : option string;
  Description_for_Receipts : option string;
  Customer_Taxes : option string;
  Vendor_Taxes : option string
}.

Definition odoo_columns : list string :=
  [ "Internal Reference"; "Name"; "Can be Sold"; "Can be Purchased";
    "Product Type"; "Category"; "Sale Price"; "Cost"; "Quantity On Hand";
    "Weight"; "Volume"; "Barcode"; "Description for Quotations";
    "Description for Receipts"; "Customer Taxes"; "Vendor Taxes" ].

(** A row of [pd.DataFrame(index=range(num_rows), columns=odoo_columns)]. *)
Definition undefined_row : odoo_row :=
  mkRow None None None None None None F64.nan F64.nan F64.nan
        None None None None None None None.

Definition set_Internal_Reference (v : option string) (r : odoo_row) : odoo_row :=
  let '(mkRow _ b c d e f g h i j k l m n o p) := r in
  mkRow v b c d e f g h i j k l m n o p.

Definition set_Name (v : option string) (r : odoo_row) : odoo_row :=
  let '(mkRow a _ c d e f g h i j k l m n o p) := r in
  mkRow a v c d e f g h i j k l m n o p.

Definition set_Can_be_Sold (v : option bool) (r : odoo_row) : odoo_row :=
  let '(mkRow a b _ d e f g h i j k l m n o p) := r in
  mkRow a b v d e f g h i j k l m n o p.

Definition set_Can_be_Purchased (v : option bool) (r : odoo_row) : odoo_row :=
  let '(mkRow a b c _ e f g h i j k l m n o p) := r in
  mkRow a b c v e f g h i j k l m n o p.

Definition set_Product_Type (v : option string) (r : odoo_row) : odoo_row :=
  let '(mkRow a b c d _ f g h i j k l m n o p) := r in
  mkRow a b c d v f g h i j k l m n o p.

Definition set_Category (v : option string) (r : odoo_row) : odoo_row :=
  let '(mkRow a b c d e _ g h i j k l m n o p) := r in
  mkRow a b c d e v g h i j k l m n o p.

Definition set_Sale_Price (v : F64.float) (r : odoo_row) : odoo_row :=
  let '(mkRow a b c d e f _ h i j k l m n o p) := r in
  mkRow a b c d e f v h i j k l m n o p.

Definition set_Cost (v : F64.float) (r : odoo_row) : odoo_row :=
  let '(mkRow a b c d e f g _ i j k l m n o p) := r in
  mkRow a b c d e f g v i j k l m n o p.

Definition set_Quantity_On_Hand (v : F64.float) (r : odoo_row) : odoo_row :=
  let '(mkRow a b c d e f g h _ j k l m n o p) := r in
  mkRow a b c d e f g h v j k l m n o p.

(** The seven columns of the last loop of [transform], as a getter and a
    setter each. *)
Inductive text_column : Type :=
| CWeight | CVolume | CBarcode | CDescription_for_Quotations
| CDescription_for_Receipts | CCustomer_Taxes | CVendor_Taxes.

Definition get_text (col : text_column) (r : odoo_row) : option string :=
  match col with
  | CWeight => Weight r
  | CVolume => Volume r
  | CBarcode => Barcode r
  | CDescription_for_Quotations => Description_for_Quotations r
  | CDescription_for_Receipts => Description_for_Receipts r
  | CCustomer_Taxes => Customer_Taxes r
  | CVendor_Taxes => Vendor_Taxes r
  end.

Definition set_text (col : text_column) (v : option string) (r : odoo_row)
  : odoo_row :=
  let '(mkRow a b c d e f g h i j k l m n o p) := r in
  match col with
  | CWeight => mkRow a b c d e f g h i v k l m n o p
  | CVolume => mkRow a b c d e f g h i j v l m n o p
  | CBarcode => mkRow a b c d e f g h i j k v m n o p
  | CDescription_for_Quotations => mkRow a b c d e f g h i j k l v n o p
  | CDescription_for_Receipts => mkRow a b c d e f g h i j k l m v o p
  | CCustomer_Taxes => mkRow a b c d e f g h i j k l m n v p
  | CVendor_Taxes => mkRow a b c d e f g h i j k l m n o v
  end.

(** A frame is the list of its rows, in index order. *)
Definition frame : Type := list odoo_row.

(** [result_df[col] = v] for a scalar [v]. *)
Definition assign_scalar {A : Type} (set : A -> odoo_row -> odoo_row) (v : A)
  (df : frame) : frame :=
  map (set v) df.

(** [result_df[col] = series]: both carry the index [0 .. num_rows - 1]. *)
Fixpoint assign_series {A : Type} (set : A -> odoo_row -> odoo_row)
  (series : list A) (df : frame) : frame :=
  match series, df with
  | v :: series', r :: df' => set v r :: assign_series set series' df'
  | _, _ => df
  end.

(** [df.dropna(subset=['Internal Reference', 'Name'])]. *)
Definition is_some {A : Type} (o : option A) : bool :=
  match o with Some _ => true | None => false end.

Definition dropna_required (df : frame) : frame :=
  filter (fun r => is_some (Internal_Reference r) && is_some (Name r)) df.

(** [series.fillna(v)] on a float and on a text column. *)
Definition fillna_float (v x : F64.float) : F64.float :=
  if F64.is_nan x then v else x.

Definition fillna_text (v : string) (x : option string) : option string :=
  match x with
  | None => Some v
  | Some _ => x
  end.

(** Equality of two values of a text column; two undefined values are
    the same value for [duplicated]. *)
Definition value_eqb (x y : option string) : bool :=
  match x, y with
  | Some a, Some b => (a =? b)%string
  | None, None => true
  | _, _ => false
  end.

(** [series.duplicated()]: a value is flagged when it was seen before. *)
Fixpoint duplicated_from (seen l : list (option string)) : list bool :=
  match l with
  | [] => []
  | x :: r => existsb (value_eqb x) seen :: duplicated_from (x :: seen) r
  end.

Definition duplicated (l : list (option string)) : list bool :=
  duplicated_from [] l.

(** [series[mask].tolist()]. *)
Fixpoint select {A : Type} (mask : list bool) (l : list A) : list A :=
  match mask, l with
  | b :: mask', x :: l' => if b then x :: select mask' l' else select mask' l'
  | _, _ => []
  end.

(** The dictionary [validate_transformed_data] returns. *)
Record validation : Type := mkValidation {
  errors : list string;
  warnings : list string;
  valid : bool
}.

(** ** The transformer *)

Section DataTransformer.

(** [str(x)] of a finite nonzero float. *)
Variable float_repr : F64.float -> string.

(** What [pd.to_numeric] reads from a string, [None] when it does not
    parse. *)
Variable to_double : string -> option F64.float.

(** [repr(s)] of a string, as an f-string prints the items of a list. *)
Variable str_repr : string -> string.

Definition float_str (x : F64.float) : string :=
  match x with
  | S754_nan => "nan"
  | S754_infinity s => if s then "-inf" else "inf"
  | S754_zero s => if s then "-0.0" else "0.0"
  | S754_finite _ _ _ => float_repr x
  end.

(** [str(value)]. *)
Definition py_str (c : cell) : string :=
  match c with
  | Text s => s
  | Number x => float_str x
  | Null PyNone => "None"
  | Null PdNA => "<NA>"
  end.

(** One item of [series.astype(str).str.strip().replace('nan', '')]. *)
Definition clean_text (c : cell) : string :=
  let t := PyStr.strip (py_str c) in
  if (t =? "nan")%string then "" else t.

Definition _clean_text_data (series : list cell) : list string :=
  map clean_text series.

(** One item of [pd.to_numeric(series, errors='coerce')], as a float: a
    column that pandas keeps as integers is read through its floats. *)
Definition to_numeric (c : cell) : F64.float :=
  match c with
  | Number x => x
  | Text s =>
      match to_double s with
      | Some x => x
      | None => F64.nan
      end
  | Null _ => F64.nan
  end.

Definition _clean_float_data (series : list cell) (decimal_places : Z)
  : list F64.float :=
  let numeric_series := map to_numeric series in
  let rounded_series := map (fun x => F64.round x decimal_places) numeric_series in
  rounded_series.

(** The body of the [try] block of [_format_currency]. *)
Definition currency_conversion (value : cell) (decimal_places : Z)
  : outcome F64.float :=
  decimal_value <- PyDecimal.of_string (py_str value) ;;
  rounded_value <-
    PyDecimal.quantize_half_up decimal_value (- Z.max 0 decimal_places) ;;
  PyDecimal.to_float rounded_value.

Definition _format_currency (value : cell) (decimal_places : Z) : F64.float :=
  if isna value then F64.zero
  else
    match currency_conversion value decimal_places with
    | Ok x => x
    | Raise _ => F64.zero
    end.

(** The body of the mapping loop for one item of [column_mapping]. *)
Definition map_column (df : DataFrame) (source_col_idx : Z) (odoo_field : string)
  (result_df : frame) : outcome frame :=
  if source_col_idx <? Z.of_nat (ncols df) then
    source_data <- iloc_column df source_col_idx ;;
    if (odoo_field =? "internal_reference")%string then
      Ok (assign_series set_Internal_Reference
            (map Some (_clean_text_data source_data)) result_df)
    else if (odoo_field =? "name")%string then
      Ok (assign_series set_Name
            (map Some (_clean_text_data source_data)) result_df)
    else if (odoo_field =? "list_price")%string then
      Ok (assign_series set_Sale_Price (_clean_float_data source_data 2) result_df)
    else if (odoo_field =? "standard_price")%string then
      Ok (assign_series set_Cost (_clean_float_data source_data 2) result_df)
    else if (odoo_field =? "qty_available")%string then
      Ok (assign_series set_Quantity_On_Hand
            (_clean_float_data source_data 2) result_df)
    else Ok result_df
  else Ok result_df.

(** The mapping loop, over the items of the dictionary in order. *)
Fixpoint map_columns (df : DataFrame) (column_mapping : list (Z * string))
  (result_df : frame) : outcome frame :=
  match column_mapping with
  | [] => Ok result_df
  | (source_col_idx, odoo_field) :: rest =>
      result_df' <- map_column df source_col_idx odoo_field result_df ;;
      map_columns df rest result_df'
  end.

Definition default_values (result_df : frame) : frame :=
  let result_df := assign_scalar set_Can_be_Sold (Some true) result_df in
  let result_df := assign_scalar set_Can_be_Purchased (Some true) result_df in
  let result_df := assign_scalar set_Product_Type (Some "Goods") result_df in
  let result_df := assign_scalar set_Category (Some "All") result_df in
  result_df.

Definition fill_numeric (result_df : frame) : frame :=
  let result_df :=
    map (fun r => set_Sale_Price (fillna_float F64.zero (Sale_Price r)) r)
        result_df in
  let result_df :=
    map (fun r => set_Cost (fillna_float F64.zero (Cost r)) r) result_df in
  let result_df :=
    map (fun r => set_Quantity_On_Hand
                    (fillna_float F64.zero (Quantity_On_Hand r)) r)
        result_df in
  result_df.

Definition fill_text (result_df : frame) : frame :=
  fold_left
    (fun result_df col =>
       map (fun r => set_text col (fillna_text "" (get_text col r)) r) result_df)
    [CWeight; CVolume; CBarcode; CDescription_for_Quotations;
     CDescription_for_Receipts; CCustomer_Taxes; CVendor_Taxes]
    result_df.

(** The frame after the mapping loop, before rows are removed. *)
Definition mapped (df : DataFrame) (column_mapping : list (Z * string))
  : outcome frame :=
  let num_rows := List.length (rows df) in
  let result_df := repeat undefined_row num_rows in
  map_columns df column_mapping (default_values result_df).

Definition transform (df : DataFrame) (column_mapping : list (Z * string))
  : outcome frame :=
  result_df <- mapped df column_mapping ;;
  let result_df := dropna_required result_df in
  let result_df := fill_numeric result_df in
  let result_df := fill_text result_df in
  Ok result_df.

(** ** The validator *)

(** How the f-string prints the list of duplicate references. *)
Definition item_repr (v : option string) : string :=
  match v with
  | Some s => str_repr s
  | None => "nan"
  end.

Definition list_repr (l : list (option string)) : string :=
  "[" ++ PyStr.join ", " (map item_repr l) ++ "]".

Definition duplicate_prefix : string := "Duplicate Internal References found: ".

(** The numeric fields with their columns; each is a column of every
    frame, so the test [field in df.columns] always passes. *)
Definition numeric_fields : list (string * (odoo_row -> F64.float)) :=
  [ ("Sale Price", Sale_Price); ("Cost", Cost);
    ("Quantity On Hand", Quantity_On_Hand) ].

Definition check_numeric (df : frame) (warnings : list string)
  (field : string * (odoo_row -> F64.float)) : list string :=
  let '(name, column) := field in
  let warnings :=
    if existsb (fun r => F64.is_nan (column r)) df
    then (warnings ++ [("Some products have empty " ++ name)%string])%list
    else warnings in
  let warnings :=
    if existsb (fun r => F64.ltb (column r) F64.zero) df
    then (warnings ++ [("Some products have negative " ++ name)%string])%list
    else warnings in
  warnings.

Definition required_errors (df : frame) : list string :=
  let errors := [] in
  let errors :=
    if existsb (fun r => negb (is_some (Internal_Reference r))) df
    then (errors ++ ["Some products are missing Internal Reference"])%list
    else errors in
  let errors :=
    if existsb (fun r => negb (is_some (Name r))) df
    then (errors ++ ["Some products are missing Name"])%list
    else errors in
  errors.

Definition duplicate_warnings (df : frame) : list string :=
  let references := map Internal_Reference df in
  let duplicates := duplicated references in
  if existsb (fun b => b) duplicates then
    let duplicate_refs := select duplicates references in
    [duplicate_prefix ++ list_repr duplicate_refs]
  else [].

Definition validate_transformed_data (df : frame) : validation :=
  let errors := required_errors df in
  let warnings := duplicate_warnings df in
  let warnings := fold_left (check_numeric df) numeric_fields warnings in
  mkValidation errors warnings (Nat.eqb (List.length errors) 0).

End DataTransformer.

(** ** Vocabulary of the properties *)

Definition starts_with_space (s : string) : bool :=
  match PyStr.space_prefix s with
  | Some _ => true
  | None => false
  end.

(** Some suffix that is not empty holds whitespace characters only. *)
Fixpoint ends_with_space (s : string) : bool :=
  match s with
  | EmptyString => false
  | String _ r => PyStr.all_space s || ends_with_space r
  end.

(** [t] is [s] without the whitespace characters around it. *)
Definition trimmed (s t : string) : Prop :=
  exists pre post,
    s = (pre ++ t ++ post)%string /\
    PyStr.all_space pre = true /\ PyStr.all_space post = true /\
    starts_with_space t = false /\ ends_with_space t = false.

(** The values that occur at an earlier position too, in the order of
    the list: what the spec calls the duplicates. *)
Definition later_occurrences (l : list (option string)) : list (option string) :=
  map snd
      (filter (fun p => existsb (value_eqb (snd p)) (firstn (fst p) l))
              (combine (seq 0 (List.length l)) l)).

(** [n * 10^-places] is [c * 10^x] rounded half up: the distance is at most
    half a unit of the last place, and a tie goes to the larger magnitude. *)
Definition rounds_half_up (c : N) (x places : Z) (n : N) : Prop :=
  let up := 10 ^ Z.max 0 (x + places) in
  let down := 10 ^ Z.max 0 (- (x + places)) in
  2 * Z.of_N c * up - down < 2 * Z.of_N n * down <= 2 * Z.of_N c * up + down.

(** The four defaults [transform] writes on every row. *)
Definition has_defaults (r : odoo_row) : Prop :=
  Can_be_Sold r = Some true /\ Can_be_Purchased r = Some true /\
  Product_Type r = Some "Goods" /\ Category r = Some "All".

(** The three numeric fields are all defined. *)
Definition numeric_defined (r : odoo_row) : Prop :=
  F64.is_nan (Sale_Price r) = false /\ F64.is_nan (Cost r) = false /\
  F64.is_nan (Quantity_On_Hand r) = false.

(** Row [r] is row [r0] with its undefined numeric fields set to [0.0]. *)
Definition numeric_filled (r0 r : odoo_row) : Prop :=
  Sale_Price r = fillna_float F64.zero (Sale_Price r0) /\
  Cost r = fillna_float F64.zero (Cost r0) /\
  Quantity_On_Hand r = fillna_float F64.zero (Quantity_On_Hand r0).

(** Floats and frames of the examples. *)
Definition f_0_125 : F64.float := F64.of_decimal false 125 (-3).
Definition f_0_12 : F64.float := F64.of_decimal false 12 (-2).
Definition f_0_13 : F64.float := F64.of_decimal false 13 (-2).
Definition f_2_345 : F64.float := F64.of_decimal false 2345 (-3).
Definition f_2_35 : F64.float := F64.of_decimal false 235 (-2).

Definition defaulted_row (reference name : string) : odoo_row :=
  mkRow (Some reference) (Some name) (Some true) (Some true)
        (Some "Goods") (Some "All") F64.zero F64.zero F64.zero
        (Some "") (Some "") (Some "") (Some "") (Some "") (Some "") (Some "").

(** The row of the specification's example, and two rows with the same
    reference. *)
Definition example_df : DataFrame :=
  mkDataFrame 3 [[Text "ABC-1"; Text "Widget"; Text "19.999"]].

Definition example_mapping : list (Z * string) :=
  [(0, "internal_reference"%string); (1, "name"%string); (2, "list_price"%string)].

Definition example_out : frame :=
  [set_Sale_Price (F64.of_decimal false 20 0) (defaulted_row "ABC-1" "Widget")].

Definition duplicate_df : frame :=
  [defaulted_row "DUP-1" "Widget"; defaulted_row "DUP-1" "Gadget"].

(** Three rows with three references. *)
Definition distinct_df : frame :=
  [ defaulted_row "ABC-1" "Widget"; defaulted_row "ABC-2" "Gadget";
    defaulted_row "XYZ-9" "Bolt" ].

(** Five rows, two references occurring again. *)
Definition repeated_df : frame :=
  [ defaulted_row "DUP-1" "Widget"; defaulted_row "X-2" "Bolt";
    defaulted_row "DUP-1" "Gadget"; defaulted_row "X-2" "Nut";
    defaulted_row "DUP-1" "Washer" ].

(** A row whose price does not parse. *)
Definition malformed_df : DataFrame :=
  mkDataFrame 3 [[Text "ABC-1"; Text "Widget"; Text "n/a"]].

(** ** The transformer, one row at a time *)

Section RowView.

Variable float_repr : F64.float -> string.
Variable to_double : string -> option F64.float.

(** The position [df.iloc] reads for index [i] in a table of [n] columns. *)
Definition column_position (n : nat) (i : Z) : nat :=
  Z.to_nat (if i <? 0 then i + Z.of_nat n else i).

(** What one item of the mapping does to the result row of source row
    [row]. *)
Definition map_row (n : nat) (row : list cell) (e : Z * string) (r : odoo_row)
  : odoo_row :=
  let '(i, f) := e in
  if i <? Z.of_nat n then
    let c := nth (column_position n i) row Missing in
    if (f =? "internal_reference")%string then
      set_Internal_Reference (Some (clean_text float_repr c)) r
    else if (f =? "name")%string then
      set_Name (Some (clean_text float_repr c)) r
    else if (f =? "list_price")%string then
      set_Sale_Price (F64.round (to_numeric to_double c) 2) r
    else if (f =? "standard_price")%string then
      set_Cost (F64.round (to_numeric to_double c) 2) r
    else if (f =? "qty_available")%string then
      set_Quantity_On_Hand (F64.round (to_numeric to_double c) 2) r
    else r
  else r.

(** A row with the four defaults and nothing else. *)
Definition default_row : odoo_row :=
  mkRow None None (Some true) (Some true) (Some "Goods") (Some "All")
        F64.nan F64.nan F64.nan None None None None None None None.

Definition transform_row (n : nat) (column_mapping : list (Z * string))
  (row : list cell) : odoo_row :=
  fold_left (fun r e => map_row n row e r) column_mapping default_row.

(** The two fill steps on one row. *)
Definition finish_row (r : odoo_row) : odoo_row :=
  mkRow (Internal_Reference r) (Name r) (Can_be_Sold r) (Can_be_Purchased r)
        (Product_Type r) (Category r)
        (fillna_float F64.zero (Sale_Price r))
        (fillna_float F64.zero (Cost r))
        (fillna_float F64.zero (Quantity_On_Hand r))
        (fillna_text "" (Weight r)) (fillna_text "" (Volume r))
        (fillna_text "" (Barcode r))
        (fillna_text "" (Description_for_Quotations r))
        (fillna_text "" (Description_for_Receipts r))
        (fillna_text "" (Customer_Taxes r)) (fillna_text "" (Vendor_Taxes r)).

Definition required_present (r : odoo_row) : bool :=
  is_some (Internal_Reference r) && is_some (Name r).

End RowView.

(** No item of the mapping writes field [key] from a column of the table. *)
Definition unmapped (n : nat) (column_mapping : list (Z * string)) (key : string)
  : Prop :=
  forall i, In (i, key) column_mapping -> Z.of_nat n <= i.

(** The five field keys [transform] knows. *)
Definition field_keys : list string :=
  [ "internal_reference"; "name"; "list_price"; "standard_price";
    "qty_available" ]%string.

(** The fields a mapping can write, and a row with one of them blanked. *)
Inductive mapped_field : Type :=
| FReference | FName | FSale_Price | FCost | FQuantity.

Definition erase (F : mapped_field) (r : odoo_row) : odoo_row :=
  match F with
  | FReference => set_Internal_Reference None r
  | FName => set_Name None r
  | FSale_Price => set_Sale_Price F64.nan r
  | FCost => set_Cost F64.nan r
  | FQuantity => set_Quantity_On_Hand F64.nan r
  end.

Definition field_of_key (f : string) : option mapped_field :=
  if (f =? "internal_reference")%string then Some FReference
  else if (f =? "name")%string then Some FName
  else if (f =? "list_price")%string then Some FSale_Price
  else if (f =? "standard_price")%string then Some FCost
  else if (f =? "qty_available")%string then Some FQuantity
  else None.

Definition is_finite (x : F64.float) : bool :=
  match x with S754_finite _ _ _ => true | _ => false end.

Definition empty_prefix : string := "Some products have empty ".
Definition negative_prefix : string := "Some products have negative ".

(** ** Properties of the string helpers *)

Lemma append_assoc (a b c : string) :
  ((a ++ b) ++ c)%string = (a ++ b ++ c)%string.
Proof. induction a as [|x a IH]; simpl; [reflexivity | now rewrite IH]. Qed.

Lemma append_nil_r (a : string) : (a ++ "")%string = a.
Proof. induction a as [|x a IH]; simpl; [reflexivity | now rewrite IH]. Qed.

Lemma lstrip_eq (s : string) :
  PyStr.lstrip s
  = match PyStr.space_prefix s with
    | Some r => PyStr.lstrip r
    | None => s
    end.
Proof.
  destruct s as [|c1 [|c2 [|c3 r3]]]; simpl; try reflexivity.
  - destruct (PyStr.is_space c1); reflexivity.
  - destruct (PyStr.is_space c1); [reflexivity|].
    destruct (PyStr.is_space2 c1 c2); reflexivity.
  - destruct (PyStr.is_space c1); [reflexivity|].
    destruct (PyStr.is_space2 c1 c2); [reflexivity|].
    destruct (PyStr.is_space3 c1 c2 c3); reflexivity.
Qed.

(** A whitespace character is cut off whatever follows it. *)
Lemma space_prefix_split (s r : string) :
  PyStr.space_prefix s = Some r ->
  exists w,
    s = (w ++ r)%string /\ (String.length r < String.length s)%nat /\
    forall r', PyStr.space_prefix (w ++ r') = Some r'.
Proof.
  destruct s as [|c1 r1]; [discriminate|]. simpl.
  destruct (PyStr.is_space c1) eqn:H1.
  - intros E. inversion E; subst. exists (String c1 ""). simpl.
    rewrite H1. repeat split; auto.
  - destruct r1 as [|c2 r2]; [discriminate|].
    destruct (PyStr.is_space2 c1 c2) eqn:H2.
    + intros E. inversion E; subst. exists (String c1 (String c2 "")). simpl.
      rewrite H1, H2. repeat split; auto.
    + destruct r2 as [|c3 r3]; [discriminate|].
      destruct (PyStr.is_space3 c1 c2 c3) eqn:H3; [|discriminate].
      intros E. inversion E; subst.
      exists (String c1 (String c2 (String c3 ""))). simpl.
      rewrite H1, H2, H3. repeat split; auto.
Qed.

Lemma space_prefix_app (s r t : string) :
  PyStr.space_prefix s = Some r ->
  PyStr.space_prefix (s ++ t) = Some (r ++ t)%string.
Proof.
  intros H. destruct (space_prefix_split s r H) as (w & -> & _ & Hw).
  rewrite append_assoc. apply Hw.
Qed.

Lemma string_length_ind (P : string -> Prop) :
  (forall s, (forall r, (String.length r < String.length s)%nat -> P r) -> P s) ->
  forall s, P s.
Proof.
  intros H s.
  enough (G : forall n r, (String.length r < n)%nat -> P r)
    by (apply (G (S (String.length s))); lia).
  induction n as [|n IH]; intros r Hr; [lia|].
  apply H. intros r' Hr'. apply IH. lia.
Qed.

Lemma all_space_lstrip (s : string) :
  PyStr.all_space s = true <-> PyStr.lstrip s = ""%string.
Proof.
  unfold PyStr.all_space. destruct (PyStr.lstrip s); split; congruence.
Qed.

Lemma lstrip_app (s t : string) :
  PyStr.all_space s = true -> PyStr.lstrip (s ++ t) = PyStr.lstrip t.
Proof.
  revert s. apply (string_length_ind
    (fun s => PyStr.all_space s = true -> PyStr.lstrip (s ++ t) = PyStr.lstrip t)).
  intros s IH H. apply all_space_lstrip in H.
  rewrite lstrip_eq in H.
  destruct (PyStr.space_prefix s) as [r|] eqn:E.
  - rewrite (lstrip_eq (s ++ t)), (space_prefix_app s r t E).
    destruct (space_prefix_split s r E) as (_ & _ & Hlen & _).
    apply IH; [exact Hlen | now apply all_space_lstrip].
  - subst s. reflexivity.
Qed.

Lemma all_space_app (s t : string) :
  PyStr.all_space s = true -> PyStr.all_space t = true ->
  PyStr.all_space (s ++ t) = true.
Proof.
  intros Hs Ht. apply all_space_lstrip. rewrite lstrip_app by exact Hs.
  now apply all_space_lstrip.
Qed.

Lemma lstrip_spec (s : string) :
  exists pre,
    PyStr.all_space pre = true /\ s = (pre ++ PyStr.lstrip s)%string /\
    starts_with_space (PyStr.lstrip s) = false.
Proof.
  revert s. apply string_length_ind. intros s IH.
  rewrite lstrip_eq. unfold starts_with_space.
  destruct (PyStr.space_prefix s) as [r|] eqn:E.
  - destruct (space_prefix_split s r E) as (w & -> & Hlen & Hw).
    destruct (IH r Hlen) as (pre & Hpre & Heq & Hst).
    exists (w ++ pre)%string. repeat split.
    + apply all_space_app; [|exact Hpre].
      apply all_space_lstrip. rewrite lstrip_eq.
      rewrite <- (append_nil_r w) at 1. now rewrite Hw.
    + rewrite append_assoc. now rewrite <- Heq.
    + exact Hst.
  - exists ""%string. rewrite E. auto.
Qed.

Lemma rstrip_spec (s : string) :
  exists post,
    PyStr.all_space post = true /\ s = (PyStr.rstrip s ++ post)%string /\
    ends_with_space (PyStr.rstrip s) = false.
Proof.
  induction s as [|c r IH].
  - exists ""%string. auto.
  - cbn [PyStr.rstrip].
    destruct (PyStr.all_space (String c r)) eqn:Hs.
    + exists (String c r). auto.
    + destruct IH as (post & Hpost & Heq & Hend).
      exists post. repeat split; [exact Hpost | simpl; now rewrite <- Heq |].
      cbn [ends_with_space]. rewrite Hend, orb_false_r.
      destruct (PyStr.all_space (String c (PyStr.rstrip r))) eqn:Hk;
        [|reflexivity].
      rewrite Heq in Hs.
      change (String c (PyStr.rstrip r ++ post))
        with (String c (PyStr.rstrip r) ++ post)%string in Hs.
      now rewrite all_space_app in Hs.
Qed.

Lemma starts_with_space_app (s t : string) :
  starts_with_space s = true -> starts_with_space (s ++ t) = true.
Proof.
  unfold starts_with_space.
  destruct (PyStr.space_prefix s) as [r|] eqn:E; [|discriminate].
  now rewrite (space_prefix_app s r t E).
Qed.

Lemma rstrip_keeps_start (s : string) :
  starts_with_space s = false -> starts_with_space (PyStr.rstrip s) = false.
Proof.
  intros H. destruct (rstrip_spec s) as (post & _ & Heq & _).
  destruct (starts_with_space (PyStr.rstrip s)) eqn:E; [|reflexivity].
  apply (starts_with_space_app _ post) in E. rewrite <- Heq in E. congruence.
Qed.

Lemma strip_spec (s : string) :
  exists pre post,
    s = (pre ++ PyStr.strip s ++ post)%string /\
    PyStr.all_space pre = true /\ PyStr.all_space post = true /\
    starts_with_space (PyStr.strip s) = false /\
    ends_with_space (PyStr.strip s) = false.
Proof.
  destruct (lstrip_spec s) as (pre & Hpre & Heq & Hst).
  destruct (rstrip_spec (PyStr.lstrip s)) as (post & Hpost & Heq' & Hend).
  exists pre, post. unfold PyStr.strip.
  repeat split; auto using rstrip_keeps_start.
  now rewrite <- Heq', <- Heq.
Qed.

(** ** Properties of frames *)

Lemma Forall_assign_series {A : Type} (P : odoo_row -> Prop)
  (set : A -> odoo_row -> odoo_row) (series : list A) (df : frame) :
  (forall v r, P r -> P (set v r)) ->
  Forall P df -> Forall P (assign_series set series df).
Proof.
  intros Hset. revert df.
  induction series as [|v series IH]; intros [|r df] H; simpl; auto.
  inversion H; subst. constructor; auto.
Qed.

Lemma Forall2_map_right {A B : Type} (R : A -> B -> Prop) (f : A -> B)
  (l : list A) :
  (forall x, R x (f x)) -> Forall2 R l (map f l).
Proof. intros H. induction l; simpl; constructor; auto. Qed.

Lemma fillna_float_defined (x : F64.float) :
  F64.is_nan (fillna_float F64.zero x) = false.
Proof. destruct x; reflexivity. Qed.

(** [rint] goes to a nearest integer, and on a tie to the even one. *)
Lemma round_half_even_spec (m k : Z) :
  0 <= k ->
  let n := F64.round_half_even m k in
  2 * m - 2 ^ k <= 2 * n * 2 ^ k <= 2 * m + 2 ^ k /\
  (2 * (m mod 2 ^ k) = 2 ^ k -> Z.even n = true).
Proof.
  intros Hk n. subst n. unfold F64.round_half_even.
  assert (HP : 0 < 2 ^ k) by (apply Z.pow_pos_nonneg; lia).
  pose proof (Z.div_mod m (2 ^ k) ltac:(lia)) as Hm.
  pose proof (Z.mod_pos_bound m (2 ^ k) HP) as Hr.
  set (q := m / 2 ^ k) in *. set (r := m mod 2 ^ k) in *.
  destruct (Z.compare_spec (2 * r) (2 ^ k)) as [E|L|G].
  - destruct (Z.even q) eqn:Ev; split; try nia; intros _.
    + exact Ev.
    + rewrite Z.even_add, Ev. reflexivity.
  - split; [nia | lia].
  - split; [nia | lia].
Qed.

Lemma round_nan (decimals : Z) : F64.round F64.nan decimals = F64.nan.
Proof.
  unfold F64.round.
  destruct (0 <=? decimals); [destruct (decimals =? 0)|]; reflexivity.
Qed.

Lemma value_eqb_eq (x y : option string) : value_eqb x y = true <-> x = y.
Proof.
  destruct x as [a|], y as [b|]; simpl; try (split; congruence).
  rewrite String.eqb_eq. split; congruence.
Qed.

Lemma existsb_value_eqb (x : option string) (l : list (option string)) :
  existsb (value_eqb x) l = true <-> In x l.
Proof.
  rewrite existsb_exists. split.
  - intros (y & Hy & E). apply value_eqb_eq in E. now subst.
  - intros H. exists x. split; [assumption | now apply value_eqb_eq].
Qed.

Lemma startswith_app (p s : string) : PyStr.startswith p (p ++ s) = true.
Proof.
  induction p as [|a p IH]; simpl; [reflexivity|].
  now rewrite Ascii.eqb_refl, IH.
Qed.

Lemma duplicated_from_length (l seen : list (option string)) :
  List.length (duplicated_from seen l) = List.length l.
Proof.
  revert seen. induction l as [|y r IH]; intros seen; simpl; [reflexivity|].
  now rewrite IH.
Qed.

(** A position is flagged exactly when its value was seen before it. *)
Lemma duplicated_from_flag (l : list (option string)) :
  forall seen i x,
    nth_error l i = Some x ->
    nth_error (duplicated_from seen l) i = Some true <->
    In x seen \/ exists j, (j < i)%nat /\ nth_error l j = Some x.
Proof.
  induction l as [|y r IH]; intros seen i x Hx.
  - destruct i; discriminate.
  - destruct i as [|i]; simpl in *.
    + inversion Hx; subst y. split.
      * intros H. inversion H as [E]. left. now apply existsb_value_eqb.
      * intros [H|(j & Hj & _)]; [|lia].
        f_equal. now apply existsb_value_eqb.
    + rewrite (IH (y :: seen) i x Hx). split.
      * intros [[E|H]|(j & Hj & Hn)].
        -- right. exists 0%nat. split; [lia|]. simpl. now subst.
        -- now left.
        -- right. exists (S j). split; [lia|]. exact Hn.
      * intros [H|(j & Hj & Hn)].
        -- left. now right.
        -- destruct j as [|j]; simpl in Hn.
           ++ left. left. congruence.
           ++ right. exists j. split; [lia|]. exact Hn.
Qed.

(** Without a flag the values are pairwise distinct. *)
Lemma duplicated_from_no_flag (l : list (option string)) :
  forall seen,
    existsb (fun b => b) (duplicated_from seen l) = false ->
    NoDup l /\ forall y, In y l -> ~ In y seen.
Proof.
  induction l as [|x r IH]; intros seen H; simpl in *.
  - split; [constructor | tauto].
  - apply orb_false_iff in H. destruct H as [Hx Hr].
    destruct (IH (x :: seen) Hr) as [Hnd Hdis].
    assert (Hxs : ~ In x seen).
    { intros Hin. apply existsb_value_eqb in Hin. congruence. }
    split.
    + constructor; [|exact Hnd].
      intros Hin. apply (Hdis x Hin). now left.
    + intros y [<-|Hy]; [exact Hxs|].
      intros Hin. apply (Hdis y Hy). now right.
Qed.

(** ** Properties of the decimal rounding *)

(** Looking at the first digit cut off decides on which side of the tie
    the coefficient is. *)
Lemma half_up_digit (C K : Z) :
  0 <= C -> 0 < K ->
  let q := C / 10 ^ K in
  let d := (C / 10 ^ (K - 1)) mod 10 in
  let n := if 5 <=? d then q + 1 else q in
  2 * C - 10 ^ K < 2 * n * 10 ^ K <= 2 * C + 10 ^ K.
Proof.
  intros HC HK q d n.
  assert (HP : 0 < 10 ^ (K - 1)) by (apply Z.pow_pos_nonneg; lia).
  assert (E : 10 ^ K = 10 ^ (K - 1) * 10).
  { replace K with (K - 1 + 1) at 1 by lia. rewrite Z.pow_add_r by lia. reflexivity. }
  set (P := 10 ^ (K - 1)) in *.
  assert (Hq : q = (C / P) / 10).
  { unfold q. rewrite E. rewrite Z.div_div by lia. reflexivity. }
  pose proof (Z.div_mod C P ltac:(lia)) as HCP.
  pose proof (Z.mod_pos_bound C P HP) as Hb.
  pose proof (Z.div_mod (C / P) 10 ltac:(lia)) as Ha.
  pose proof (Z.mod_pos_bound (C / P) 10 ltac:(lia)) as Hd.
  fold d in Ha, Hd. rewrite <- Hq in Ha.
  rewrite E. subst n.
  destruct (Z.leb_spec 5 d); nia.
Qed.

Lemma rescale_rounds_half_up (c : N) (x places : Z) :
  rounds_half_up c x places (PyDecimal.rescale_half_up c x (- places)).
Proof.
  unfold rounds_half_up, PyDecimal.rescale_half_up.
  destruct (Z.leb_spec (- places) x) as [Hle|Hlt].
  - rewrite N2Z.inj_mul, N2Z.inj_pow, Z2N.id by lia.
    replace (x - - places) with (x + places) by lia.
    rewrite (Z.max_r 0 (x + places)) by lia.
    rewrite (Z.max_l 0 (- (x + places))) by lia.
    change (10 ^ 0) with 1. change (Z.of_N 10) with 10. lia.
  - rewrite (Z.max_l 0 (x + places)) by lia.
    rewrite (Z.max_r 0 (- (x + places))) by lia.
    change (10 ^ 0) with 1.
    set (K := - (x + places)).
    assert (HK : 0 < K) by (unfold K; lia).
    assert (Ek : Z.of_N (Z.to_N (- places - x)) = K)
      by (rewrite Z2N.id; unfold K; lia).
    assert (Ek1 : Z.of_N (Z.to_N (- places - x) - 1) = K - 1).
    { rewrite N2Z.inj_sub; [rewrite Ek; reflexivity|]. lia. }
    pose proof (half_up_digit (Z.of_N c) K (N2Z.is_nonneg c) HK) as H.
    cbv zeta in H.
    assert (Eq : Z.of_N (c / 10 ^ Z.to_N (- places - x)) = Z.of_N c / 10 ^ K).
    { rewrite N2Z.inj_div, N2Z.inj_pow, Ek. reflexivity. }
    assert (Ed : Z.of_N ((c / 10 ^ (Z.to_N (- places - x) - 1)) mod 10)
                 = (Z.of_N c / 10 ^ (K - 1)) mod 10).
    { rewrite N2Z.inj_mod, N2Z.inj_div, N2Z.inj_pow, Ek1. reflexivity. }
    destruct (N.leb_spec 5 ((c / 10 ^ (Z.to_N (- places - x) - 1)) mod 10))
      as [H5|H5].
    + rewrite N2Z.inj_add, Eq.
      destruct (Z.leb_spec 5 ((Z.of_N c / 10 ^ (K - 1)) mod 10)); [|lia].
      change (Z.of_N 1) with 1. lia.
    + rewrite Eq.
      destruct (Z.leb_spec 5 ((Z.of_N c / 10 ^ (K - 1)) mod 10)); [lia|].
      lia.
Qed.

Lemma quantize_finite (s : bool) (c : N) (x places : Z) (q : PyDecimal.decimal) :
  PyDecimal.quantize_half_up (PyDecimal.Finite s c x) (- places) = Ok q ->
  exists n, q = PyDecimal.Finite s n (- places) /\ rounds_half_up c x places n.
Proof.
  unfold PyDecimal.quantize_half_up.
  destruct (negb _); [discriminate|].
  destruct (N.eqb_spec c 0) as [->|Hc].
  - intros H. inversion H; subst. exists 0%N. split; [reflexivity|].
    unfold rounds_half_up. simpl Z.of_N.
    assert (0 < 10 ^ Z.max 0 (- (x + places))) by (apply Z.pow_pos_nonneg; lia).
    lia.
  - destruct (_ <? _); [discriminate|].
    destruct (_ <? _); [discriminate|].
    destruct (_ <? _); [discriminate|].
    destruct (_ <? _); [discriminate|].
    intros H. inversion H; subst.
    eexists. split; [reflexivity|]. apply rescale_rounds_half_up.
Qed.

Lemma existsb_value_eqb_ext (x : option string) (l l' : list (option string)) :
  (forall y, In y l <-> In y l') ->
  existsb (value_eqb x) l = existsb (value_eqb x) l'.
Proof.
  intros H.
  destruct (existsb (value_eqb x) l) eqn:E, (existsb (value_eqb x) l') eqn:E';
    try reflexivity.
  - apply existsb_value_eqb in E. apply H in E.
    apply existsb_value_eqb in E. congruence.
  - apply existsb_value_eqb in E'. apply H in E'.
    apply existsb_value_eqb in E'. congruence.
Qed.

Lemma combine_seq_succ {A : Type} (k : nat) (l : list A) :
  combine (seq (S k) (List.length l)) l
  = map (fun p => (S (fst p), snd p)) (combine (seq k (List.length l)) l).
Proof.
  revert k. induction l as [|x l IH]; intros k; simpl; [reflexivity|].
  f_equal. apply IH.
Qed.

Lemma filter_map_swap {A B : Type} (p : B -> bool) (g : A -> B) (l : list A) :
  filter p (map g l) = map g (filter (fun x => p (g x)) l).
Proof.
  induction l as [|x l IH]; simpl; [reflexivity|].
  destruct (p (g x)); simpl; now rewrite IH.
Qed.

(** The values [duplicated] flags are those that occur among the values
    seen so far. *)
Lemma select_duplicated_from (l : list (option string)) :
  forall seen before,
    (forall y, In y seen <-> In y before) ->
    select (duplicated_from seen l) l
    = map snd
          (filter (fun p =>
                     existsb (value_eqb (snd p)) (before ++ firstn (fst p) l))
                  (combine (seq 0 (List.length l)) l)).
Proof.
  induction l as [|y r IH]; intros seen before Hs; [reflexivity|].
  assert (T : map snd
                (filter (fun p : nat * option string =>
                           existsb (value_eqb (snd p))
                                   (before ++ firstn (fst p) (y :: r)))
                        (combine (seq 1 (List.length r)) r))
              = select (duplicated_from (y :: seen) r) r).
  { rewrite combine_seq_succ, filter_map_swap, map_map.
    cbn [fst snd firstn].
    rewrite (IH (y :: seen) (before ++ [y])%list).
    - f_equal. apply filter_ext. intros p. now rewrite <- app_assoc.
    - intros z. rewrite in_app_iff. simpl. rewrite Hs. tauto. }
  assert (E : existsb (value_eqb y) (before ++ firstn 0 (y :: r))
              = existsb (value_eqb y) seen).
  { apply existsb_value_eqb_ext. intros z. simpl. rewrite app_nil_r.
    symmetry. apply Hs. }
  cbn [duplicated_from select List.length seq combine filter fst snd].
  rewrite E.
  destruct (existsb (value_eqb y) seen); cbn [map snd]; now rewrite T.
Qed.

Lemma select_duplicated (l : list (option string)) :
  select (duplicated l) l = later_occurrences l.
Proof.
  unfold duplicated, later_occurrences.
  now rewrite (select_duplicated_from l [] []).
Qed.

(** ** Properties of the transformer *)

Section Properties.

Variable float_repr : F64.float -> string.
Variable to_double : string -> option F64.float.
Variable str_repr : string -> string.

(** *** Text cleaning *)

Lemma clean_text_never_nan (c : cell) : clean_text float_repr c <> "nan"%string.
Proof.
  unfold clean_text.
  destruct (String.eqb_spec (PyStr.strip (py_str float_repr c)) "nan") as [E|E].
  - discriminate.
  - exact E.
Qed.

(** C8: a null cell is not cleaned to the empty string: [None] becomes
    the text "None" and [pd.NA] the text "<NA>", so a row whose reference
    cell is [None] is returned with the reference "None".  The float NaN
    and the cell "  nan  " do clean to the empty string. *)
Theorem clean_text_keeps_null :
  _clean_text_data float_repr [Null PyNone; Null PdNA; Missing; Text "  nan  "]
  = ["None"; "<NA>"; ""; ""]%string /\
  isna (Null PyNone) = true /\
  isna (Null PdNA) = true /\
  transform float_repr to_double
    (mkDataFrame 2 [[Null PyNone; Text "Widget"]])
    [(0, "internal_reference"%string); (1, "name"%string)]
  = Ok [defaulted_row "None" "Widget"].
Proof. repeat split; reflexivity. Qed.

(** X22: text-clean of a text cell is the cell's own text without the
    whitespace characters around it, and the empty string when that is
    "nan"; a number is cleaned the same way from its text, which is fixed
    for NaN, the infinities and the zeros; no cell cleans to "nan". *)
Theorem clean_text_trims :
  (forall s,
      exists t,
        trimmed s t /\
        clean_text float_repr (Text s)
        = if (t =? "nan")%string then ""%string else t) /\
  (forall x,
      is_finite x = true ->
      exists t,
        trimmed (float_repr x) t /\
        clean_text float_repr (Number x)
        = if (t =? "nan")%string then ""%string else t) /\
  map (clean_text float_repr)
      [ Missing; Number (S754_infinity false); Number (S754_infinity true);
        Number (S754_zero false); Number (S754_zero true) ]
  = [""; "inf"; "-inf"; "0.0"; "-0.0"]%string /\
  (forall c, clean_text float_repr c <> "nan"%string).
Proof.
  assert (H : forall s,
             exists t,
               trimmed s t /\
               (let u := PyStr.strip s in
                if (u =? "nan")%string then ""%string else u)
               = if (t =? "nan")%string then ""%string else t).
  { intros s.
    destruct (strip_spec s) as (pre & post & Heq & Hpre & Hpost & Hst & Hend).
    exists (PyStr.strip s). split; [|reflexivity].
    exists pre, post. repeat split; assumption. }
  split; [|split; [|split]].
  - intros s. exact (H s).
  - intros x Hx. destruct x; try discriminate. exact (H _).
  - reflexivity.
  - apply clean_text_never_nan.
Qed.

(** *** Rows with an empty required field *)

(** C1: a row whose reference cell is missing, and one whose reference
    cell is blank, are both kept by [transform], with the empty string as
    their Internal Reference: [dropna] removes undefined values only, and
    text-clean has made the value defined. *)
Theorem transform_keeps_empty_reference :
  transform float_repr to_double
    (mkDataFrame 2 [[Missing; Text "Widget"]; [Text "  "; Text "Gadget"]])
    [(0, "internal_reference"%string); (1, "name"%string)]
  = Ok [defaulted_row "" "Widget"; defaulted_row "" "Gadget"].
Proof. reflexivity. Qed.

(** What the filter does ensure: both required fields are defined. *)
Lemma transform_required_defined (df : DataFrame)
  (column_mapping : list (Z * string)) (out : frame) :
  transform float_repr to_double df column_mapping = Ok out ->
  Forall (fun r => Internal_Reference r <> None /\ Name r <> None) out.
Proof.
  unfold transform. intros H.
  destruct (mapped float_repr to_double df column_mapping) as [pre|e];
    simpl in H; [|discriminate].
  inversion H; subst. clear H.
  unfold fill_text, fill_numeric, dropna_required. simpl. rewrite !map_map.
  apply Forall_forall. intros r Hr. apply in_map_iff in Hr.
  destruct Hr as (r0 & <- & Hr0). apply filter_In in Hr0.
  destruct Hr0 as [_ Hk]. apply andb_true_iff in Hk.
  destruct r0 as [[?|] [?|]]; simpl in *; destruct Hk; split; congruence.
Qed.

(** *** Rounding of numeric columns *)

(** C2: numeric-clean rounds 0.125 to 0.12, the even neighbour, where
    rounding half up gives 0.13, the value [_format_currency] returns;
    2.345 and -2.345 do go to 2.35 and -2.35, the float next to 2.345
    being above the tie. *)
Theorem clean_float_rounds_half_even :
  _clean_float_data to_double [Number f_0_125] 2 = [f_0_12] /\
  _format_currency float_repr (Text "0.125") 2 = f_0_13 /\
  f_0_12 <> f_0_13 /\
  _clean_float_data to_double [Number f_2_345; Number (SFopp f_2_345)] 2
  = [f_2_35; SFopp f_2_35].
Proof.
  split; [vm_compute; reflexivity|].
  split; [vm_compute; reflexivity|].
  split; [vm_compute; discriminate|].
  vm_compute; reflexivity.
Qed.

(** *** Column positions *)

(** C3: a negative source column index is not ignored.  Below [-ncols]
    the lookup raises; from [-ncols] to [-1] it reads a column counted
    from the end. *)
Theorem transform_negative_index :
  transform float_repr to_double
    (mkDataFrame 1 [[Text "A"]]) [(-2, "name"%string)]
  = Raise IndexError /\
  transform float_repr to_double
    (mkDataFrame 2 [[Text "A"; Text "B"]])
    [(0, "internal_reference"%string); (-1, "name"%string)]
  = Ok [defaulted_row "A" "B"].
Proof. split; reflexivity. Qed.

(** An index at or beyond the number of columns leaves the frame as it
    is. *)
Lemma map_column_beyond (df : DataFrame) (i : Z) (f : string) (result_df : frame) :
  Z.of_nat (ncols df) <= i ->
  map_column float_repr to_double df i f result_df = Ok result_df.
Proof.
  intros H. unfold map_column.
  destruct (Z.ltb_spec i (Z.of_nat (ncols df))); [lia | reflexivity].
Qed.

Lemma map_columns_app (df : DataFrame) (m1 m2 : list (Z * string)) :
  forall result_df,
    map_columns float_repr to_double df (m1 ++ m2) result_df
    = (result_df' <- map_columns float_repr to_double df m1 result_df ;;
       map_columns float_repr to_double df m2 result_df').
Proof.
  induction m1 as [|[i f] m1 IH]; simpl; intros r; [reflexivity|].
  destruct (map_column float_repr to_double df i f r); simpl; auto.
Qed.

(** X20: the part of the guard that works: an entry whose index is at or
    beyond the number of columns changes nothing. *)
Lemma transform_ignores_index_beyond (df : DataFrame) (i : Z) (f : string)
  (m1 m2 : list (Z * string)) :
  Z.of_nat (ncols df) <= i ->
  transform float_repr to_double df (m1 ++ (i, f) :: m2)
  = transform float_repr to_double df (m1 ++ m2).
Proof.
  intros H. unfold transform, mapped. rewrite !map_columns_app.
  destruct (map_columns float_repr to_double df m1 _) as [r|e]; simpl;
    [|reflexivity].
  now rewrite map_column_beyond.
Qed.

(** *** Defaults *)

Lemma map_column_defaults (df : DataFrame) (i : Z) (f : string)
  (result_df result_df' : frame) :
  map_column float_repr to_double df i f result_df = Ok result_df' ->
  Forall has_defaults result_df -> Forall has_defaults result_df'.
Proof.
  unfold map_column. intros H Hd.
  destruct (i <? Z.of_nat (ncols df)); [|now inversion H; subst].
  destruct (iloc_column df i) as [source_data|e]; simpl in H; [|discriminate].
  repeat match type of H with
         | (if ?b then _ else _) = _ => destruct b
         end;
    inversion H; subst; auto;
    apply Forall_assign_series; auto;
    intros v [] Hr; exact Hr.
Qed.

Lemma map_columns_defaults (df : DataFrame) (column_mapping : list (Z * string)) :
  forall result_df result_df',
    map_columns float_repr to_double df column_mapping result_df = Ok result_df' ->
    Forall has_defaults result_df -> Forall has_defaults result_df'.
Proof.
  induction column_mapping as [|[i f] rest IH]; simpl; intros r r' H Hd.
  - now inversion H; subst.
  - destruct (map_column float_repr to_double df i f r) as [r1|e] eqn:E;
      simpl in H; [|discriminate].
    eapply IH; eauto using map_column_defaults.
Qed.

Lemma default_values_defaults (result_df : frame) :
  Forall has_defaults (default_values result_df).
Proof.
  unfold default_values, assign_scalar. rewrite !map_map.
  apply Forall_forall. intros r Hr. apply in_map_iff in Hr.
  destruct Hr as ([] & <- & _). repeat split.
Qed.

Lemma fill_defaults (result_df : frame) :
  Forall has_defaults result_df ->
  Forall has_defaults (fill_text (fill_numeric result_df)).
Proof.
  unfold fill_text, fill_numeric. simpl. rewrite !map_map.
  intros H. apply Forall_forall. intros r Hr. apply in_map_iff in Hr.
  destruct Hr as (r0 & <- & Hr0).
  rewrite Forall_forall in H. specialize (H r0 Hr0).
  destruct r0. exact H.
Qed.

(** C7: every row of the table [transform] returns has Can be Sold and
    Can be Purchased true, Product Type "Goods" and Category "All",
    whatever the source table and the mapping. *)
Theorem transform_defaults (df : DataFrame) (column_mapping : list (Z * string))
  (out : frame) :
  transform float_repr to_double df column_mapping = Ok out ->
  Forall has_defaults out.
Proof.
  unfold transform, mapped. intros H.
  destruct (map_columns float_repr to_double df column_mapping _)
    as [pre|e] eqn:E; simpl in H; [|discriminate].
  inversion H; subst. apply fill_defaults.
  unfold dropna_required.
  apply Forall_forall. intros r Hr. apply filter_In in Hr. destruct Hr as [Hr _].
  revert r Hr. apply Forall_forall.
  eapply map_columns_defaults; [exact E|]. apply default_values_defaults.
Qed.

(** *** Malformed cells *)

Lemma map_column_is_ok (df : DataFrame) (i : Z) (f : string) (result_df : frame) :
  is_ok (map_column float_repr to_double df i f result_df)
  = (- Z.of_nat (ncols df) <=? i).
Proof.
  unfold map_column, iloc_column.
  destruct (Z.ltb_spec i (Z.of_nat (ncols df))) as [Hlt|Hge].
  - destruct (Z.ltb_spec i (- Z.of_nat (ncols df))) as [Hlo|Hlo]; simpl.
    + symmetry. apply Z.leb_gt. lia.
    + destruct (Z.leb_spec (Z.of_nat (ncols df)) i); [lia|]. simpl.
      repeat match goal with
             | |- context [if ?b then _ else _] => destruct b
             end; simpl; symmetry; apply Z.leb_le; lia.
  - simpl. symmetry. apply Z.leb_le. lia.
Qed.

Lemma map_columns_is_ok (df : DataFrame) (column_mapping : list (Z * string)) :
  forall result_df,
    is_ok (map_columns float_repr to_double df column_mapping result_df)
    = forallb (fun e => - Z.of_nat (ncols df) <=? fst e) column_mapping.
Proof.
  induction column_mapping as [|[i f] rest IH]; simpl; intros r; [reflexivity|].
  rewrite <- (map_column_is_ok df i f r).
  destruct (map_column float_repr to_double df i f r) as [r1|e]; simpl; auto.
Qed.

Lemma fill_numeric_filled (pre : frame) :
  Forall2 numeric_filled pre (fill_text (fill_numeric pre)).
Proof.
  unfold fill_text, fill_numeric. simpl. rewrite !map_map.
  apply Forall2_map_right. intros []. repeat split.
Qed.

Lemma fill_numeric_defined (pre : frame) :
  Forall numeric_defined (fill_text (fill_numeric pre)).
Proof.
  unfold fill_text, fill_numeric. simpl. rewrite !map_map.
  apply Forall_forall. intros r Hr. apply in_map_iff in Hr.
  destruct Hr as ([] & <- & _). unfold numeric_defined. simpl.
  auto using fillna_float_defined.
Qed.

(** C6: a cell that does not parse as a number is a missing value after
    numeric-clean; whether [transform] returns depends on the mapping's
    keys and the number of columns only, never on a cell; and in the table
    returned the rows that passed the required-field filter have every
    missing Sale Price, Cost and Quantity On Hand replaced by 0.0. *)
Theorem transform_degrades_malformed_cells (df : DataFrame)
  (column_mapping : list (Z * string)) :
  (forall s decimal_places,
      to_double s = None ->
      _clean_float_data to_double [Text s] decimal_places = [F64.nan]) /\
  is_ok (transform float_repr to_double df column_mapping)
  = forallb (fun e => - Z.of_nat (ncols df) <=? fst e) column_mapping /\
  (forall out,
      transform float_repr to_double df column_mapping = Ok out ->
      exists pre,
        mapped float_repr to_double df column_mapping = Ok pre /\
        Forall2 numeric_filled (dropna_required pre) out /\
        Forall numeric_defined out).
Proof.
  split; [|split].
  - intros s dp Hs. unfold _clean_float_data, to_numeric. simpl.
    rewrite Hs. now rewrite round_nan.
  - unfold transform, mapped.
    rewrite <- (map_columns_is_ok df column_mapping
                  (default_values (repeat undefined_row (List.length (rows df))))).
    destruct (map_columns float_repr to_double df column_mapping _); reflexivity.
  - unfold transform. intros out H.
    destruct (mapped float_repr to_double df column_mapping) as [pre|e];
      simpl in H; [|discriminate].
    inversion H; subst. exists pre.
    auto using fill_numeric_filled, fill_numeric_defined.
Qed.

(** *** The validator *)

(** C4: [valid] is true exactly when the list of errors is empty; two
    tables with the same errors have the same [valid], whatever their
    warnings, and a table with warnings can be valid. *)
Theorem validate_valid_iff_no_errors (df : frame) :
  (valid (validate_transformed_data str_repr df) = true <->
   errors (validate_transformed_data str_repr df) = []) /\
  (forall df',
      errors (validate_transformed_data str_repr df')
      = errors (validate_transformed_data str_repr df) ->
      valid (validate_transformed_data str_repr df')
      = valid (validate_transformed_data str_repr df)) /\
  (exists df',
      warnings (validate_transformed_data str_repr df') <> [] /\
      valid (validate_transformed_data str_repr df') = true).
Proof.
  split; [|split].
  - simpl. destruct (required_errors df); simpl; split; congruence.
  - simpl. intros df' H. now rewrite H.
  - exists [mkRow (Some "A"%string) (Some "B"%string) None None None None
                  F64.nan F64.zero F64.zero None None None None None None None].
    split; [discriminate | reflexivity].
Qed.

Lemma existsb_false_Forall {A : Type} (p : A -> bool) (l : list A) :
  Forall (fun x => p x = false) l -> existsb p l = false.
Proof.
  induction 1 as [|x l Hx _ IH]; simpl; [reflexivity|].
  now rewrite Hx, IH.
Qed.

(** C5: when every Internal Reference and every Name is the empty
    string, the validator reports no error and [valid] is true. *)
Theorem validate_accepts_empty_strings (df : frame) :
  Forall (fun r => Internal_Reference r = Some ""%string /\
                   Name r = Some ""%string) df ->
  errors (validate_transformed_data str_repr df) = [] /\
  valid (validate_transformed_data str_repr df) = true.
Proof.
  intros H.
  assert (E : required_errors df = []).
  { unfold required_errors.
    rewrite !existsb_false_Forall; [reflexivity| |];
      (eapply Forall_impl; [|exact H]); intros r [Hi Hn]; simpl;
      now rewrite ?Hi, ?Hn. }
  simpl. rewrite E. split; reflexivity.
Qed.

Lemma numeric_warnings_not_duplicates (df : frame) (w : list string) :
  filter (PyStr.startswith duplicate_prefix)
         (fold_left (check_numeric df) numeric_fields w)
  = filter (PyStr.startswith duplicate_prefix) w.
Proof.
  unfold numeric_fields, check_numeric. simpl.
  repeat match goal with
         | |- context [if existsb ?p df then _ else _] => destruct (existsb p df)
         end;
    rewrite ?filter_app; simpl; rewrite ?app_nil_r; reflexivity.
Qed.

Lemma validate_warnings (df : frame) :
  warnings (validate_transformed_data str_repr df)
  = fold_left (check_numeric df) numeric_fields (duplicate_warnings str_repr df).
Proof. reflexivity. Qed.

(** C9: when an Internal Reference occurs twice, the validator gives
    exactly one duplicates warning; it lists, in the order of the rows,
    the reference of every row whose reference occurs in an earlier row
    too: a position is flagged exactly when its value occurs at an
    earlier position, so the first occurrence is not flagged and every
    later one is, and the values listed are those at the flagged
    positions. *)
Theorem validate_reports_duplicates (df : frame) :
  let references := map Internal_Reference df in
  ~ NoDup references ->
  filter (PyStr.startswith duplicate_prefix)
         (warnings (validate_transformed_data str_repr df))
  = [(duplicate_prefix
      ++ list_repr str_repr (select (duplicated references) references))%string] /\
  select (duplicated references) references = later_occurrences references /\
  List.length (duplicated references) = List.length references /\
  (forall i x,
      nth_error references i = Some x ->
      nth_error (duplicated references) i = Some true <->
      exists j, (j < i)%nat /\ nth_error references j = Some x).
Proof.
  intros references Hdup. split; [|split; [|split]].
  - rewrite validate_warnings, numeric_warnings_not_duplicates.
    unfold duplicate_warnings. fold references.
    destruct (existsb (fun b => b) (duplicated references)) eqn:E.
    + cbn [filter]. now rewrite startswith_app.
    + exfalso. apply Hdup.
      now destruct (duplicated_from_no_flag references [] E).
  - apply select_duplicated.
  - apply duplicated_from_length.
  - intros i x Hx. unfold duplicated.
    rewrite (duplicated_from_flag references [] i x Hx).
    simpl. tauto.
Qed.

(** *** The currency formatter *)

(** [_format_currency] returns 0.0 for a missing value and whenever the
    conversion raises; otherwise the value read as a decimal is rounded
    half up to the configured number of places (a tie goes away from
    zero, the sign being kept) and converted to a float, a quiet NaN
    staying a NaN. *)
Theorem format_currency_spec (value : cell) (decimal_places : Z) :
  let places := Z.max 0 decimal_places in
  (isna value = true -> _format_currency float_repr value decimal_places = F64.zero) /\
  (forall e,
      currency_conversion float_repr value decimal_places = Raise e ->
      _format_currency float_repr value decimal_places = F64.zero) /\
  (isna value = false ->
   forall s c x q,
     PyDecimal.of_string (py_str float_repr value) = Ok (PyDecimal.Finite s c x) ->
     PyDecimal.quantize_half_up (PyDecimal.Finite s c x) (- places) = Ok q ->
     exists n,
       q = PyDecimal.Finite s n (- places) /\
       rounds_half_up c x places n /\
       _format_currency float_repr value decimal_places
       = F64.of_decimal s n (- places)) /\
  (isna value = false ->
   forall s,
     PyDecimal.of_string (py_str float_repr value) = Ok (PyDecimal.NaN s false) ->
     _format_currency float_repr value decimal_places = F64.nan).
Proof.
  intros places. subst places. unfold _format_currency. repeat split.
  - intros ->. reflexivity.
  - intros e ->. now destruct (isna value).
  - intros Hna s c x q Hof Hq.
    destruct (quantize_finite s c x _ q Hq) as (n & -> & Hn).
    exists n. split; [reflexivity|]. split; [exact Hn|].
    rewrite Hna. unfold currency_conversion. rewrite Hof. cbn [bind].
    rewrite Hq. reflexivity.
  - intros Hna s Hof. rewrite Hna. unfold currency_conversion.
    rewrite Hof. reflexivity.
Qed.

(** C10: the text "nan" is not a missing value for [pd.isna] and its
    conversion does not fail: [Decimal] reads it as a quiet NaN, which
    [quantize] and [float] pass on, so [_format_currency] returns NaN,
    neither 0.0 nor a number rounded to two places.  The same holds for
    the variants [Decimal] accepts, such as " NaN " and "-nan". *)
Theorem format_currency_text_nan :
  map isna [Text "nan"; Text " NaN "; Text "-nan"] = [false; false; false] /\
  map (fun value => currency_conversion float_repr value 2)
      [Text "nan"; Text " NaN "; Text "-nan"]
  = [Ok F64.nan; Ok F64.nan; Ok F64.nan] /\
  map (fun value => _format_currency float_repr value 2)
      [Text "nan"; Text " NaN "; Text "-nan"]
  = [F64.nan; F64.nan; F64.nan] /\
  F64.nan <> F64.zero.
Proof. repeat split; try reflexivity. discriminate. Qed.

End Properties.

(** ** The theorems at concrete tables *)

(** The example row of the specification: 19.999 is cleaned to 20.0. *)
Example transform_example :
  transform Reference.float_repr Reference.to_double example_df example_mapping
  = Ok example_out.
Proof. reflexivity. Qed.

(** Two rows with one reference: a single warning, and the table is valid. *)
Example validate_duplicate_example :
  validate_transformed_data Reference.str_repr duplicate_df
  = mkValidation [] ["Duplicate Internal References found: ['DUP-1']"%string] true.
Proof. reflexivity. Qed.

(** The formatter on the values of the specification. *)
Example format_currency_examples :
  map (fun value => _format_currency Reference.float_repr value 2)
      [Text "2.345"; Text "-2.345"; Number f_0_125; Missing; Text "abc"]
  = [f_2_35; SFopp f_2_35; f_0_13; F64.zero; F64.zero].
Proof. vm_compute. reflexivity. Qed.

Lemma transform_defaults_witness :
  transform Reference.float_repr Reference.to_double example_df example_mapping
  = Ok example_out /\
  Forall has_defaults example_out.
Proof.
  split; [reflexivity|].
  apply (transform_defaults Reference.float_repr Reference.to_double
           example_df example_mapping example_out).
  reflexivity.
Defined.

Lemma validate_accepts_empty_strings_witness :
  Forall (fun r => Internal_Reference r = Some ""%string /\
                   Name r = Some ""%string) [defaulted_row "" ""] /\
  errors (validate_transformed_data Reference.str_repr [defaulted_row "" ""]) = [] /\
  valid (validate_transformed_data Reference.str_repr [defaulted_row "" ""]) = true.
Proof.
  assert (H : Forall (fun r => Internal_Reference r = Some ""%string /\
                               Name r = Some ""%string) [defaulted_row "" ""]).
  { constructor; [split; reflexivity | constructor]. }
  split; [exact H|].
  exact (validate_accepts_empty_strings Reference.str_repr [defaulted_row "" ""] H).
Defined.

Lemma validate_reports_duplicates_witness :
  ~ NoDup (map Internal_Reference repeated_df) /\
  filter (PyStr.startswith duplicate_prefix)
         (warnings (validate_transformed_data Reference.str_repr repeated_df))
  = ["Duplicate Internal References found: ['DUP-1', 'X-2', 'DUP-1']"%string] /\
  later_occurrences (map Internal_Reference repeated_df)
  = [Some "DUP-1"; Some "X-2"; Some "DUP-1"]%string.
Proof.
  assert (H : ~ NoDup (map Internal_Reference repeated_df)).
  { intros H. inversion H as [|x l Hx _]; subst. apply Hx.
    right. left. reflexivity. }
  destruct (validate_reports_duplicates Reference.str_repr repeated_df H)
    as (Hw & Hl & _).
  split; [exact H|]. split; [exact Hw|]. reflexivity.
Defined.

Lemma transform_degrades_malformed_cells_witness :
  Reference.to_double "n/a" = None /\
  _clean_float_data Reference.to_double [Text "n/a"] 2 = [F64.nan] /\
  transform Reference.float_repr Reference.to_double malformed_df example_mapping
  = Ok [defaulted_row "ABC-1" "Widget"] /\
  Forall numeric_defined [defaulted_row "ABC-1" "Widget"].
Proof.
  destruct (transform_degrades_malformed_cells
              Reference.float_repr Reference.to_double
              malformed_df example_mapping) as (Hclean & _ & Hfill).
  assert (Hparse : Reference.to_double "n/a" = None) by reflexivity.
  assert (Hrun : transform Reference.float_repr Reference.to_double
                   malformed_df example_mapping
                 = Ok [defaulted_row "ABC-1" "Widget"]) by reflexivity.
  split; [exact Hparse|].
  split; [exact (Hclean "n/a"%string 2 Hparse)|].
  split; [exact Hrun|].
  destruct (Hfill _ Hrun) as (pre & _ & _ & Hdef). exact Hdef.
Defined.

Lemma format_currency_spec_witness :
  isna (Text "2.345") = false /\
  _format_currency Reference.float_repr (Text "2.345") 2 = f_2_35 /\
  rounds_half_up 2345 (-3) 2 235.
Proof.
  destruct (format_currency_spec Reference.float_repr (Text "2.345") 2)
    as (_ & _ & Hround & _).
  destruct (Hround eq_refl false 2345%N (-3) (PyDecimal.Finite false 235 (-2))
              eq_refl eq_refl) as (n & Hn & Hup & Hval).
  inversion Hn; subst n.
  split; [reflexivity|]. split; [exact Hval | exact Hup].
Defined.

(** * Further properties of the transformer and the validator *)

(** ** The transformer works row by row *)

Lemma assign_series_map {A B : Type} (set : A -> odoo_row -> odoo_row)
  (h : B -> A) (g : B -> odoo_row) (l : list B) :
  assign_series set (map h l) (map g l) = map (fun x => set (h x) (g x)) l.
Proof. induction l as [|x l IH]; simpl; [reflexivity | now rewrite IH]. Qed.

Lemma iloc_column_in_range (df : DataFrame) (i : Z) :
  - Z.of_nat (ncols df) <= i < Z.of_nat (ncols df) ->
  iloc_column df i
  = Ok (map (fun row => nth (column_position (ncols df) i) row Missing) (rows df)).
Proof.
  intros H. unfold iloc_column, column_position.
  destruct (Z.ltb_spec i (- Z.of_nat (ncols df))); [lia|].
  destruct (Z.leb_spec (Z.of_nat (ncols df)) i); [lia|]. reflexivity.
Qed.

Lemma default_values_repeat (rs : list (list cell)) :
  default_values (repeat undefined_row (List.length rs))
  = map (fun _ => default_row) rs.
Proof.
  unfold default_values, assign_scalar. rewrite !map_map.
  induction rs as [|row rs IH]; simpl; [reflexivity|]. now rewrite IH.
Qed.

Lemma fill_rowwise (l : frame) : fill_text (fill_numeric l) = map finish_row l.
Proof.
  unfold fill_text, fill_numeric. simpl. rewrite !map_map.
  apply map_ext. intros []. reflexivity.
Qed.

Section RowWise.

Variable float_repr : F64.float -> string.
Variable to_double : string -> option F64.float.

Lemma map_column_rowwise (df : DataFrame) (i : Z) (f : string)
  (g : list cell -> odoo_row) :
  - Z.of_nat (ncols df) <= i ->
  map_column float_repr to_double df i f (map g (rows df))
  = Ok (map (fun row => map_row float_repr to_double (ncols df) row (i, f) (g row))
            (rows df)).
Proof.
  intros H. unfold map_column, map_row.
  destruct (Z.ltb_spec i (Z.of_nat (ncols df))) as [Hlt|Hge].
  - rewrite iloc_column_in_range by lia. cbn [bind].
    unfold _clean_text_data, _clean_float_data.
    repeat match goal with
           | |- context [if (f =? ?k)%string then _ else _] =>
               destruct (f =? k)%string
           end;
      rewrite ?map_map; try rewrite assign_series_map; reflexivity.
  - reflexivity.
Qed.

Lemma map_columns_rowwise (df : DataFrame) (column_mapping : list (Z * string)) :
  forallb (fun e => - Z.of_nat (ncols df) <=? fst e) column_mapping = true ->
  forall g : list cell -> odoo_row,
    map_columns float_repr to_double df column_mapping (map g (rows df))
    = Ok (map (fun row =>
                 fold_left (fun r e => map_row float_repr to_double (ncols df) row e r)
                           column_mapping (g row))
              (rows df)).
Proof.
  induction column_mapping as [|[i f] rest IH]; intros Hok g.
  - reflexivity.
  - simpl in Hok. apply andb_true_iff in Hok. destruct Hok as [Hi Hrest].
    apply Z.leb_le in Hi. simpl in Hi.
    cbn [map_columns]. rewrite map_column_rowwise by exact Hi. cbn [bind].
    rewrite (IH Hrest). reflexivity.
Qed.

Lemma map_columns_raises (df : DataFrame) (column_mapping : list (Z * string)) :
  forall result_df e,
    map_columns float_repr to_double df column_mapping result_df = Raise e ->
    e = IndexError.
Proof.
  induction column_mapping as [|[i f] rest IH]; intros r e H; simpl in H.
  - discriminate.
  - destruct (map_column float_repr to_double df i f r) as [r1|e1] eqn:E;
      simpl in H.
    + eauto.
    + inversion H; subst e1. clear H. unfold map_column, iloc_column in E.
      destruct (i <? Z.of_nat (ncols df)); [|discriminate].
      destruct (_ || _); simpl in E.
      * congruence.
      * repeat match type of E with
               | (if ?b then _ else _) = _ => destruct b
               end; discriminate.
Qed.

(** With every key at or above [-ncols], the result is the rows of the
    source, each mapped on its own, without those lacking a required
    field, and filled. *)
Lemma transform_rowwise (df : DataFrame) (column_mapping : list (Z * string)) :
  forallb (fun e => - Z.of_nat (ncols df) <=? fst e) column_mapping = true ->
  transform float_repr to_double df column_mapping
  = Ok (map finish_row
          (filter required_present
             (map (transform_row float_repr to_double (ncols df) column_mapping)
                  (rows df)))).
Proof.
  intros Hok. unfold transform, mapped.
  rewrite default_values_repeat, (map_columns_rowwise df column_mapping Hok).
  cbn [bind]. rewrite fill_rowwise. reflexivity.
Qed.

Lemma transform_raises (df : DataFrame) (column_mapping : list (Z * string)) :
  forallb (fun e => - Z.of_nat (ncols df) <=? fst e) column_mapping = false ->
  transform float_repr to_double df column_mapping = Raise IndexError.
Proof.
  intros Hbad. unfold transform, mapped.
  pose proof (map_columns_is_ok float_repr to_double df column_mapping
                (default_values (repeat undefined_row (List.length (rows df)))))
    as Hok.
  rewrite Hbad in Hok.
  destruct (map_columns float_repr to_double df column_mapping _) as [r|e] eqn:E;
    [discriminate|].
  apply map_columns_raises in E. now subst.
Qed.

End RowWise.

Lemma filter_none {A : Type} (p : A -> bool) (l : list A) :
  (forall x, In x l -> p x = false) -> filter p l = [].
Proof.
  induction l as [|x l IH]; simpl; intros H; [reflexivity|].
  rewrite (H x (or_introl eq_refl)). apply IH. auto.
Qed.

(** ** Rounding keeps a number a number *)

Lemma shr_1_nonneg (mrs : shr_record) :
  0 <= shr_m mrs -> 0 <= shr_m (shr_1 mrs).
Proof.
  destruct mrs as [m r s]. simpl.
  destruct m as [|p|p]; [| destruct p | ]; simpl; lia.
Qed.

Lemma iter_shr_1_nonneg (p : positive) :
  forall mrs, 0 <= shr_m mrs -> 0 <= shr_m (iter_pos shr_1 p mrs).
Proof.
  induction p as [p IH|p IH|]; intros mrs H; simpl;
    auto using shr_1_nonneg.
Qed.

Lemma shr_fexp_nonneg (m e : Z) (l : location) :
  0 <= m -> 0 <= shr_m (fst (shr_fexp F64.prec F64.emax m e l)).
Proof.
  intros H. unfold shr_fexp, shr.
  assert (H0 : 0 <= shr_m (shr_record_of_loc m l))
    by (destruct l as [|[]]; exact H).
  destruct (fexp F64.prec F64.emax (Zdigits2 m + e) - e); simpl;
    auto using iter_shr_1_nonneg.
Qed.

Lemma round_nearest_even_nonneg (m : Z) (l : location) :
  0 <= m -> 0 <= round_nearest_even m l.
Proof.
  intros H. unfold round_nearest_even.
  destruct l as [|[]]; try destruct (Z.even m); lia.
Qed.

Lemma binary_round_aux_defined (s : bool) (m e : Z) (l : location) :
  0 <= m -> F64.is_nan (binary_round_aux F64.prec F64.emax s m e l) = false.
Proof.
  intros H. unfold binary_round_aux.
  pose proof (shr_fexp_nonneg m e l H) as H1.
  destruct (shr_fexp F64.prec F64.emax m e l) as [mrs' e'].
  simpl in H1.
  pose proof (shr_fexp_nonneg _ e' loc_Exact
                (round_nearest_even_nonneg _ (loc_of_shr_record mrs') H1)) as H2.
  destruct (shr_fexp F64.prec F64.emax _ e' loc_Exact) as [mrs'' e''].
  simpl in H2.
  destruct (shr_m mrs''); [reflexivity | | lia].
  now destruct (e'' <=? F64.emax - F64.prec).
Qed.

Lemma binary_normalize_defined (m e : Z) (s : bool) :
  F64.is_nan (binary_normalize F64.prec F64.emax m e s) = false.
Proof.
  unfold binary_normalize, binary_round.
  destruct m; [reflexivity | |];
    destruct (shl_align _ _ _); apply binary_round_aux_defined; lia.
Qed.

Lemma mul_defined (x y : F64.float) :
  F64.is_nan x = false -> is_finite y = true ->
  F64.is_nan (F64.mul x y) = false.
Proof.
  destruct x, y; try discriminate; intros _ _; try reflexivity.
  apply binary_round_aux_defined. lia.
Qed.

Lemma div_defined (x y : F64.float) :
  F64.is_nan x = false -> is_finite y = true ->
  F64.is_nan (F64.div x y) = false.
Proof.
  destruct x as [| | |sx mx ex], y as [| | |sy my ey];
    try discriminate; intros _ _; try reflexivity.
  unfold F64.div, SFdiv, SFdiv_core_binary.
  set (m' := match _ - _ - _ with Z0 => Zpos mx | Zpos _ => Z.shiftl _ _
                               | Zneg _ => 0 end).
  assert (Hm : 0 <= m').
  { subst m'. destruct (_ - _ - _); try lia. apply Z.shiftl_nonneg. lia. }
  pose proof (Z.div_pos m' (Zpos my) Hm ltac:(lia)) as Hq.
  unfold Z.div in Hq.
  destruct (Z.div_eucl m' (Zpos my)) as [q r].
  now apply binary_round_aux_defined.
Qed.

Lemma rint_defined (x : F64.float) :
  F64.is_nan x = false -> F64.is_nan (F64.rint x) = false.
Proof.
  destruct x; try discriminate; intros _; try reflexivity.
  unfold F64.rint. destruct (0 <=? e); [reflexivity|].
  apply binary_normalize_defined.
Qed.

Lemma round_defined (x : F64.float) (decimals : Z) :
  is_finite (F64.power_of_ten (Z.abs decimals)) = true ->
  F64.is_nan (F64.round x decimals) = F64.is_nan x.
Proof.
  intros Hp. destruct (F64.is_nan x) eqn:Hx.
  - destruct x; try discriminate.
    change S754_nan with F64.nan. now rewrite round_nan.
  - unfold F64.round.
    destruct (Z.leb_spec 0 decimals) as [Hd|Hd].
    + destruct (decimals =? 0); [now apply rint_defined|].
      rewrite Z.abs_eq in Hp by lia.
      auto using div_defined, rint_defined, mul_defined.
    + rewrite Z.abs_neq in Hp by lia.
      auto using div_defined, rint_defined, mul_defined.
Qed.

Lemma of_decimal_defined (s : bool) (c : N) (e : Z) :
  F64.is_nan (F64.of_decimal s c e) = false.
Proof.
  unfold F64.of_decimal. destruct c as [|p]; [reflexivity|].
  destruct (0 <=? e).
  - apply binary_normalize_defined.
  - now apply div_defined.
Qed.

(** ** Values that are not flagged *)

(** The values [duplicated] does not flag are pairwise distinct, and they
    are the values of the list that were not seen before it. *)
Lemma unflagged_from (l : list (option string)) :
  forall seen,
    let firsts := select (map negb (duplicated_from seen l)) l in
    NoDup firsts /\ forall x, In x firsts <-> In x l /\ ~ In x seen.
Proof.
  induction l as [|y r IH]; intros seen; simpl.
  - split; [constructor | tauto].
  - destruct (IH (y :: seen)) as [Hnd Hin]. simpl in Hnd, Hin.
    destruct (existsb (value_eqb y) seen) eqn:E; simpl.
    + apply existsb_value_eqb in E. split; [exact Hnd|].
      intros x. rewrite Hin. simpl. split.
      * intros [Hx Hn]. split; [now right | tauto].
      * intros [[<-|Hx] Hn]; [contradiction|].
        split; [exact Hx|]. intros [<-|H]; contradiction.
    + assert (Hy : ~ In y seen).
      { intros H. apply existsb_value_eqb in H. congruence. }
      split.
      * constructor; [|exact Hnd]. rewrite Hin. simpl. tauto.
      * intros x. simpl. rewrite Hin. simpl. split.
        -- intros [<-|[Hx Hn]]; [tauto|]. split; [now right | tauto].
        -- intros [[<-|Hx] Hn]; [now left|].
           destruct (value_eqb y x) eqn:Ex.
           ++ apply value_eqb_eq in Ex. now left.
           ++ right. split; [exact Hx|].
              intros [->|H]; [|contradiction].
              assert (value_eqb x x = true) by now apply value_eqb_eq.
              congruence.
Qed.

(** ** Lists, strings and the checks of the validator *)

Lemma unmapped_cons (n : nat) (i : Z) (f key : string) (m : list (Z * string)) :
  unmapped n ((i, f) :: m) key ->
  (f <> key \/ Z.of_nat n <= i) /\ unmapped n m key.
Proof.
  intros H. split.
  - destruct (string_dec f key) as [->|Hne]; [right|now left].
    apply H. now left.
  - intros j Hj. apply H. now right.
Qed.

Lemma field_of_key_unknown (f : string) :
  ~ In f field_keys -> field_of_key f = None.
Proof.
  unfold field_keys, field_of_key. simpl. intros H.
  repeat match goal with
         | |- context [if (f =? ?k)%string then _ else _] =>
             destruct (String.eqb_spec f k); [exfalso; apply H; auto 10|]
         end.
  reflexivity.
Qed.

Lemma existsb_false_iff {A : Type} (p : A -> bool) (l : list A) :
  existsb p l = false <-> Forall (fun x => p x = false) l.
Proof.
  induction l as [|x l IH]; simpl.
  - split; auto.
  - rewrite orb_false_iff, IH. split.
    + intros [Hx Hl]. now constructor.
    + intros H. inversion H; subst. auto.
Qed.

Lemma required_errors_nil (df : frame) :
  required_errors df = [] <->
  Forall (fun r => Internal_Reference r <> None /\ Name r <> None) df.
Proof.
  unfold required_errors.
  destruct (existsb (fun r => negb (is_some (Internal_Reference r))) df) eqn:E1;
    destruct (existsb (fun r => negb (is_some (Name r))) df) eqn:E2; simpl.
  1-3: split; [discriminate|]; intros H; exfalso.
  1-2: apply existsb_exists in E1; destruct E1 as (r & Hr & E);
       rewrite Forall_forall in H; destruct (H r Hr) as [H1 _];
       destruct (Internal_Reference r); [discriminate | now apply H1].
  - apply existsb_exists in E2; destruct E2 as (r & Hr & E);
      rewrite Forall_forall in H; destruct (H r Hr) as [_ H2];
      destruct (Name r); [discriminate | now apply H2].
  - split; [intros _ | reflexivity].
    apply existsb_false_iff in E1. apply existsb_false_iff in E2.
    rewrite Forall_forall in *. intros r Hr.
    specialize (E1 r Hr). specialize (E2 r Hr). simpl in E1, E2.
    destruct (Internal_Reference r), (Name r); try discriminate.
    split; discriminate.
Qed.

Lemma startswith_empty_duplicate (x : string) :
  PyStr.startswith empty_prefix (duplicate_prefix ++ x) = false.
Proof. reflexivity. Qed.

Lemma duplicated_from_NoDup (l : list (option string)) :
  forall seen,
    NoDup l -> (forall y, In y l -> ~ In y seen) ->
    existsb (fun b => b) (duplicated_from seen l) = false.
Proof.
  induction l as [|x r IH]; intros seen Hnd Hdis; simpl; [reflexivity|].
  inversion Hnd as [|? ? Hx Hr]; subst.
  apply orb_false_iff. split.
  - destruct (existsb (value_eqb x) seen) eqn:E; [|reflexivity].
    apply existsb_value_eqb in E. exfalso. apply (Hdis x); simpl; auto.
  - apply IH; [exact Hr|].
    intros y Hy [<-|Hin]; [contradiction|].
    apply (Hdis y); simpl; auto.
Qed.

Lemma check_numeric_app (df : frame) (w0 : list string) (name : string)
  (column : odoo_row -> F64.float) :
  check_numeric df w0 (name, column)
  = (w0
     ++ (if existsb (fun r => F64.is_nan (column r)) df
         then [(empty_prefix ++ name)%string] else [])
     ++ (if existsb (fun r => F64.ltb (column r) F64.zero) df
         then [(negative_prefix ++ name)%string] else []))%list.
Proof.
  unfold check_numeric, empty_prefix, negative_prefix.
  destruct (existsb (fun r => F64.is_nan (column r)) df);
    destruct (existsb (fun r => F64.ltb (column r) F64.zero) df);
    cbn [app].
  - now rewrite <- app_assoc.
  - reflexivity.
  - reflexivity.
  - now rewrite app_nil_r.
Qed.

Lemma In_optional (b : bool) (m w : string) :
  In w (if b then [m] else []) <-> w = m /\ b = true.
Proof.
  destruct b; simpl; split; try tauto.
  - intros [<-|[]]. auto.
  - intros [-> _]. auto.
  - intros [_ H]. discriminate.
Qed.

Lemma In_check_numeric (df : frame)
  (fields : list (string * (odoo_row -> F64.float))) :
  forall (w0 : list string) (w : string),
    In w (fold_left (check_numeric df) fields w0) <->
    In w w0 \/
    exists name column,
      In (name, column) fields /\
      ((w = (empty_prefix ++ name)%string /\
        existsb (fun r => F64.is_nan (column r)) df = true) \/
       (w = (negative_prefix ++ name)%string /\
        existsb (fun r => F64.ltb (column r) F64.zero) df = true)).
Proof.
  induction fields as [|[name column] fields IH]; intros w0 w.
  - simpl. split; [auto | intros [H|(? & ? & [] & _)]; exact H].
  - cbn [fold_left]. rewrite IH, check_numeric_app, !in_app_iff, !In_optional.
    split.
    + intros [[H|[H|H]]|(nm & cl & Hin & Hw)].
      * now left.
      * right. exists name, column. split; [now left | now left].
      * right. exists name, column. split; [now left | now right].
      * right. exists nm, cl. split; [now right | exact Hw].
    + intros [H|(nm & cl & [E|Hin] & Hw)].
      * left. now left.
      * inversion E; subst nm cl. left. right. tauto.
      * right. exists nm, cl. split; assumption.
Qed.

Lemma lstrip_fixed (s : string) :
  starts_with_space s = false -> PyStr.lstrip s = s.
Proof.
  unfold starts_with_space. rewrite lstrip_eq.
  now destruct (PyStr.space_prefix s).
Qed.

Lemma rstrip_fixed (s : string) :
  ends_with_space s = false -> PyStr.rstrip s = s.
Proof.
  induction s as [|c r IH]; [reflexivity|].
  cbn [ends_with_space PyStr.rstrip]. intros H.
  apply orb_false_iff in H. destruct H as [Hs Hr].
  rewrite Hs. now rewrite (IH Hr).
Qed.

Lemma strip_fixed (s : string) : PyStr.strip (PyStr.strip s) = PyStr.strip s.
Proof.
  destruct (strip_spec s) as (pre & post & _ & _ & _ & Hst & Hend).
  unfold PyStr.strip at 1.
  rewrite (lstrip_fixed _ Hst). now apply rstrip_fixed.
Qed.

Lemma lstrip_all_space (s : string) :
  PyStr.all_space s = true -> PyStr.lstrip s = ""%string.
Proof. apply all_space_lstrip. Qed.

(** X19: the references the duplicates warning does not list are
    pairwise distinct, and every reference of the table is among them:
    each value stays out of the list once, at its first row. *)
Theorem duplicated_keeps_first_occurrences (df : frame) :
  let references := map Internal_Reference df in
  let firsts := select (map negb (duplicated references)) references in
  NoDup firsts /\ forall x, In x firsts <-> In x references.
Proof.
  intros references firsts.
  destruct (unflagged_from references []) as [Hnd Hin].
  split; [exact Hnd|].
  intros x. unfold firsts, duplicated. rewrite Hin. simpl. tauto.
Qed.

Section Extras.

Variable float_repr : F64.float -> string.
Variable to_double : string -> option F64.float.
Variable str_repr : string -> string.

#[local] Set Default Proof Using "Type".

(** X2: the table returned never has more rows than the source. *)
Theorem transform_length (df : DataFrame) (column_mapping : list (Z * string))
  (out : frame) :
  transform float_repr to_double df column_mapping = Ok out ->
  (List.length out <= List.length (rows df))%nat.
Proof.
  intros H.
  destruct (forallb (fun e => - Z.of_nat (ncols df) <=? fst e) column_mapping)
    eqn:Hok.
  - rewrite transform_rowwise in H by exact Hok. inversion H; subst.
    rewrite length_map.
    etransitivity; [apply filter_length_le|]. now rewrite length_map.
  - rewrite transform_raises in H by exact Hok. discriminate.
Qed.

(** *** Required fields and the rows kept *)

Lemma map_row_keeps_reference (n : nat) (row : list cell) (i : Z) (f : string)
  (r : odoo_row) :
  f <> "internal_reference"%string \/ Z.of_nat n <= i ->
  Internal_Reference (map_row float_repr to_double n row (i, f) r)
  = Internal_Reference r.
Proof.
  intros H. unfold map_row.
  destruct (Z.ltb_spec i (Z.of_nat n)); [|reflexivity].
  destruct (String.eqb_spec f "internal_reference"); [destruct H; [congruence|lia]|].
  repeat match goal with
         | |- context [if (f =? ?k)%string then _ else _] =>
             destruct (f =? k)%string
         end; destruct r; reflexivity.
Qed.

Lemma map_row_keeps_name (n : nat) (row : list cell) (i : Z) (f : string)
  (r : odoo_row) :
  f <> "name"%string \/ Z.of_nat n <= i ->
  Name (map_row float_repr to_double n row (i, f) r) = Name r.
Proof.
  intros H. unfold map_row.
  destruct (Z.ltb_spec i (Z.of_nat n)); [|reflexivity].
  destruct (String.eqb_spec f "name").
  - destruct H; [congruence|lia].
  - repeat match goal with
           | |- context [if (f =? ?k)%string then _ else _] =>
               destruct (f =? k)%string
           end; destruct r; reflexivity.
Qed.

Lemma transform_row_unmapped_reference (n : nat) (row : list cell)
  (m : list (Z * string)) :
  unmapped n m "internal_reference" ->
  Internal_Reference (transform_row float_repr to_double n m row) = None.
Proof.
  unfold transform_row. intros H.
  enough (G : forall r,
             Internal_Reference (fold_left (fun r e => map_row float_repr to_double n row e r)
                           m r)
             = Internal_Reference r) by apply G.
  induction m as [|[i f] m IH]; intros r; [reflexivity|].
  apply unmapped_cons in H. destruct H as [Hif Hm].
  cbn [fold_left]. rewrite (IH Hm). now apply map_row_keeps_reference.
Qed.

Lemma transform_row_unmapped_name (n : nat) (row : list cell)
  (m : list (Z * string)) :
  unmapped n m "name" ->
  Name (transform_row float_repr to_double n m row) = None.
Proof.
  unfold transform_row. intros H.
  enough (G : forall r,
             Name (fold_left (fun r e => map_row float_repr to_double n row e r)
                           m r)
             = Name r) by apply G.
  induction m as [|[i f] m IH]; intros r; [reflexivity|].
  apply unmapped_cons in H. destruct H as [Hif Hm].
  cbn [fold_left]. rewrite (IH Hm). now apply map_row_keeps_name.
Qed.

(** X4: when no item of the mapping writes the Internal Reference from a
    column of the table, or none writes the Name, the result is the empty
    table: every row is removed. *)
Theorem transform_without_required_field (df : DataFrame)
  (column_mapping : list (Z * string)) (out : frame) :
  unmapped (ncols df) column_mapping "internal_reference"
  \/ unmapped (ncols df) column_mapping "name" ->
  transform float_repr to_double df column_mapping = Ok out ->
  out = [].
Proof.
  intros Hun H.
  destruct (forallb (fun e => - Z.of_nat (ncols df) <=? fst e) column_mapping)
    eqn:Hok.
  - rewrite transform_rowwise in H by exact Hok. inversion H; subst. clear H.
    rewrite filter_none; [reflexivity|].
    intros r Hr. apply in_map_iff in Hr. destruct Hr as (row & <- & _).
    unfold required_present. destruct Hun as [Hun|Hun].
    + now rewrite transform_row_unmapped_reference.
    + rewrite transform_row_unmapped_name by exact Hun. apply andb_false_r.
  - rewrite transform_raises in H by exact Hok. discriminate.
Qed.

(** *** The columns without a source *)

Lemma map_row_text (n : nat) (row : list cell) (e : Z * string) (r : odoo_row)
  (col : text_column) :
  get_text col (map_row float_repr to_double n row e r) = get_text col r.
Proof.
  destruct e as [i f]. unfold map_row.
  repeat match goal with
         | |- context [if ?b then _ else _] => destruct b
         end; destruct r, col; reflexivity.
Qed.

(** X6: Weight, Volume, Barcode, the two descriptions and the two tax
    columns hold the empty string in every row returned. *)
Theorem transform_text_columns (df : DataFrame)
  (column_mapping : list (Z * string)) (out : frame) :
  transform float_repr to_double df column_mapping = Ok out ->
  Forall (fun r => forall col, get_text col r = Some ""%string) out.
Proof.
  intros H.
  destruct (forallb (fun e => - Z.of_nat (ncols df) <=? fst e) column_mapping)
    eqn:Hok.
  - rewrite transform_rowwise in H by exact Hok. inversion H; subst. clear H.
    apply Forall_forall. intros r Hr. apply in_map_iff in Hr.
    destruct Hr as (r0 & <- & Hr0). apply filter_In in Hr0.
    destruct Hr0 as [Hr0 _]. apply in_map_iff in Hr0.
    destruct Hr0 as (row & <- & _). intros col.
    assert (G : get_text col
                  (transform_row float_repr to_double (ncols df) column_mapping row)
                = None).
    { unfold transform_row.
      enough (G : forall r, get_text col r = None ->
                 get_text col
                   (fold_left
                      (fun r e => map_row float_repr to_double (ncols df) row e r)
                      column_mapping r) = None)
        by (apply G; destruct col; reflexivity).
      induction column_mapping as [|e m IH]; intros r Hr; [exact Hr|].
      cbn [fold_left]. apply IH; [|now rewrite map_row_text].
      simpl in Hok. now apply andb_true_iff in Hok. }
    destruct col; simpl in *; rewrite G; reflexivity.
  - rewrite transform_raises in H by exact Hok. discriminate.
Qed.

(** *** How the items of the mapping combine *)

Lemma transform_congr (df : DataFrame) (m m' : list (Z * string)) :
  forallb (fun e => - Z.of_nat (ncols df) <=? fst e) m
  = forallb (fun e => - Z.of_nat (ncols df) <=? fst e) m' ->
  (forall row,
      transform_row float_repr to_double (ncols df) m row
      = transform_row float_repr to_double (ncols df) m' row) ->
  transform float_repr to_double df m = transform float_repr to_double df m'.
Proof.
  intros Hok Hrow.
  destruct (forallb (fun e => - Z.of_nat (ncols df) <=? fst e) m') eqn:E.
  - rewrite !transform_rowwise by assumption.
    do 3 f_equal. apply map_ext. exact Hrow.
  - rewrite !transform_raises by assumption. reflexivity.
Qed.

Lemma transform_row_app (n : nat) (m1 m2 : list (Z * string)) (row : list cell) :
  transform_row float_repr to_double n (m1 ++ m2) row
  = fold_left (fun r e => map_row float_repr to_double n row e r) m2
              (transform_row float_repr to_double n m1 row).
Proof. unfold transform_row. apply fold_left_app. Qed.

Lemma map_row_unknown (n : nat) (row : list cell) (i : Z) (f : string)
  (r : odoo_row) :
  field_of_key f = None -> map_row float_repr to_double n row (i, f) r = r.
Proof.
  unfold field_of_key, map_row. intros H.
  repeat match type of H with
         | (if (f =? ?k)%string then _ else _) = _ =>
             destruct (f =? k)%string; [discriminate|]
         end.
  now destruct (i <? Z.of_nat n).
Qed.

(** X7: an item whose field key is none of the five known keys changes
    nothing, provided its index is not below [-ncols]. *)
Theorem transform_ignores_unknown_key (df : DataFrame) (i : Z) (f : string)
  (m1 m2 : list (Z * string)) :
  ~ In f field_keys ->
  - Z.of_nat (ncols df) <= i ->
  transform float_repr to_double df (m1 ++ (i, f) :: m2)
  = transform float_repr to_double df (m1 ++ m2).
Proof.
  intros Hf Hi. apply transform_congr.
  - rewrite !forallb_app. cbn [forallb fst].
    destruct (Z.leb_spec (- Z.of_nat (ncols df)) i); [reflexivity | lia].
  - intros row. rewrite !transform_row_app. cbn [fold_left].
    now rewrite map_row_unknown by now apply field_of_key_unknown.
Qed.

(** X8: an index from [-ncols] to [-1] reads the column counted from the
    end: the item does what the item with index [i + ncols] does. *)
Theorem transform_negative_index_wraps (df : DataFrame) (i : Z) (f : string)
  (m1 m2 : list (Z * string)) :
  - Z.of_nat (ncols df) <= i < 0 ->
  transform float_repr to_double df (m1 ++ (i, f) :: m2)
  = transform float_repr to_double df (m1 ++ (i + Z.of_nat (ncols df), f) :: m2).
Proof.
  intros Hi. apply transform_congr.
  - rewrite !forallb_app. cbn [forallb fst].
    destruct (Z.leb_spec (- Z.of_nat (ncols df)) i); [|lia].
    destruct (Z.leb_spec (- Z.of_nat (ncols df)) (i + Z.of_nat (ncols df)));
      [reflexivity | lia].
  - intros row. rewrite !transform_row_app. cbn [fold_left]. f_equal.
    unfold map_row, column_position.
    destruct (Z.ltb_spec i (Z.of_nat (ncols df))); [|lia].
    destruct (Z.ltb_spec (i + Z.of_nat (ncols df)) (Z.of_nat (ncols df))); [|lia].
    destruct (Z.ltb_spec i 0); [|lia].
    destruct (Z.ltb_spec (i + Z.of_nat (ncols df)) 0); [lia|].
    reflexivity.
Qed.

(** X9: an item with an index below [-ncols] makes [transform] raise
    [IndexError], whatever its field key and the other items. *)
Theorem transform_index_below_raises (df : DataFrame) (i : Z) (f : string)
  (column_mapping : list (Z * string)) :
  In (i, f) column_mapping ->
  i < - Z.of_nat (ncols df) ->
  transform float_repr to_double df column_mapping = Raise IndexError.
Proof.
  intros Hin Hi. apply transform_raises.
  destruct (forallb _ column_mapping) eqn:E; [|reflexivity].
  rewrite forallb_forall in E. specialize (E _ Hin). simpl in E.
  apply Z.leb_le in E. lia.
Qed.

Lemma map_row_erase (F : mapped_field) (n : nat) (row : list cell)
  (e : Z * string) (r r' : odoo_row) :
  erase F r = erase F r' ->
  erase F (map_row float_repr to_double n row e r)
  = erase F (map_row float_repr to_double n row e r').
Proof.
  destruct e as [i f]. unfold map_row. intros H.
  repeat match goal with
         | |- context [if ?b then _ else _] => destruct b
         end; try exact H;
    destruct F, r, r';
    cbv [erase set_Internal_Reference set_Name set_Sale_Price set_Cost
         set_Quantity_On_Hand] in *;
    injection H; intros; subst; reflexivity.
Qed.

Lemma map_row_erase_self (F : mapped_field) (n : nat) (row : list cell)
  (i : Z) (f : string) (r : odoo_row) :
  field_of_key f = Some F ->
  erase F (map_row float_repr to_double n row (i, f) r) = erase F r.
Proof.
  unfold field_of_key, map_row. intros H.
  destruct (i <? Z.of_nat n); [|reflexivity].
  repeat match type of H with
         | (if (f =? ?k)%string then _ else _) = _ => destruct (f =? k)%string
         end; inversion H; subst F; destruct r; reflexivity.
Qed.

Lemma map_row_overwrites (F : mapped_field) (n : nat) (row : list cell)
  (j : Z) (f : string) (r r' : odoo_row) :
  field_of_key f = Some F -> j < Z.of_nat n ->
  erase F r = erase F r' ->
  map_row float_repr to_double n row (j, f) r
  = map_row float_repr to_double n row (j, f) r'.
Proof.
  unfold field_of_key, map_row. intros H Hj He.
  destruct (Z.ltb_spec j (Z.of_nat n)); [|lia].
  repeat match type of H with
         | (if (f =? ?k)%string then _ else _) = _ => destruct (f =? k)%string
         end; inversion H; subst F; destruct r, r';
    cbv [erase set_Internal_Reference set_Name set_Sale_Price set_Cost
         set_Quantity_On_Hand] in *;
    injection He; intros; subst; reflexivity.
Qed.

(** X10: a later item for the same field key, with an index below
    [ncols], overwrites an earlier one: the earlier item can be removed
    (its index not being below [-ncols]) without changing the result. *)
Theorem transform_later_item_overwrites (df : DataFrame) (i j : Z) (f : string)
  (m1 mid m2 : list (Z * string)) :
  - Z.of_nat (ncols df) <= i ->
  j < Z.of_nat (ncols df) ->
  transform float_repr to_double df (m1 ++ (i, f) :: mid ++ (j, f) :: m2)
  = transform float_repr to_double df (m1 ++ mid ++ (j, f) :: m2).
Proof.
  intros Hi Hj. apply transform_congr.
  - rewrite !forallb_app. cbn [forallb fst]. rewrite !forallb_app.
    destruct (Z.leb_spec (- Z.of_nat (ncols df)) i); [reflexivity | lia].
  - intros row. rewrite !transform_row_app. cbn [fold_left].
    rewrite !fold_left_app. cbn [fold_left]. f_equal.
    destruct (field_of_key f) as [F|] eqn:EF.
    + apply (map_row_overwrites F); auto.
      generalize (map_row_erase_self F (ncols df) row i f
                    (transform_row float_repr to_double (ncols df) m1 row) EF).
      generalize (map_row float_repr to_double (ncols df) row (i, f)
                    (transform_row float_repr to_double (ncols df) m1 row)).
      generalize (transform_row float_repr to_double (ncols df) m1 row).
      induction mid as [|e mid IH]; intros r r' He; [exact He|].
      cbn [fold_left]. apply IH. now apply map_row_erase.
    + now rewrite (map_row_unknown (ncols df) row i f) by exact EF.
Qed.

(** *** The validator *)

(** X11: a table is valid exactly when every row has a defined Internal
    Reference and a defined Name. *)
Theorem validate_valid_iff_required_defined (df : frame) :
  valid (validate_transformed_data str_repr df) = true <->
  Forall (fun r => Internal_Reference r <> None /\ Name r <> None) df.
Proof.
  rewrite <- required_errors_nil.
  change (valid (validate_transformed_data str_repr df))
    with (Nat.eqb (List.length (required_errors df)) 0).
  destruct (required_errors df); simpl; split; congruence.
Qed.

(** X12: the validator accepts every table [transform] returns: it finds
    no error, [valid] is true, and no warning about an empty numeric
    field is given. *)
Theorem validate_after_transform (df : DataFrame)
  (column_mapping : list (Z * string)) (out : frame) :
  transform float_repr to_double df column_mapping = Ok out ->
  errors (validate_transformed_data str_repr out) = [] /\
  valid (validate_transformed_data str_repr out) = true /\
  filter (PyStr.startswith empty_prefix)
         (warnings (validate_transformed_data str_repr out)) = [].
Proof.
  intros H.
  assert (E : required_errors out = []).
  { apply required_errors_nil.
    exact (transform_required_defined float_repr to_double df column_mapping out H). }
  split; [exact E|]. split.
  - change (valid (validate_transformed_data str_repr out))
      with (Nat.eqb (List.length (required_errors out)) 0).
    now rewrite E.
  - assert (Hdef : Forall numeric_defined out).
    { unfold transform in H.
      destruct (mapped float_repr to_double df column_mapping); simpl in H;
        [|discriminate].
      inversion H; subst. apply fill_numeric_defined. }
    assert (Hnan : forall column,
               In column [Sale_Price; Cost; Quantity_On_Hand] ->
               existsb (fun r => F64.is_nan (column r)) out = false).
    { intros column Hc. apply existsb_false_iff.
      eapply Forall_impl; [|exact Hdef].
      intros r (H1 & H2 & H3).
      destruct Hc as [<-|[<-|[<-|[]]]]; assumption. }
    rewrite validate_warnings. unfold numeric_fields, check_numeric.
    cbn [fold_left].
    rewrite !Hnan by (simpl; auto).
    unfold duplicate_warnings.
    repeat match goal with
           | |- context [if existsb ?p ?l then _ else _] => destruct (existsb p l)
           end;
      rewrite ?filter_app; cbn [filter app];
      rewrite ?startswith_empty_duplicate; reflexivity.
Qed.

(** X13: when the Internal References are pairwise distinct, no
    duplicates warning is given. *)
Theorem validate_no_duplicates (df : frame) :
  NoDup (map Internal_Reference df) ->
  filter (PyStr.startswith duplicate_prefix)
         (warnings (validate_transformed_data str_repr df)) = [].
Proof.
  intros H. rewrite validate_warnings, numeric_warnings_not_duplicates.
  unfold duplicate_warnings, duplicated.
  rewrite duplicated_from_NoDup; auto.
Qed.

(** X14: for each of Sale Price, Cost and Quantity On Hand, the warning
    about a negative value is given exactly when some row has a negative
    value in that column, and the warning about an empty value exactly
    when some row has an undefined one. *)
Theorem validate_numeric_warnings (df : frame) (name : string)
  (column : odoo_row -> F64.float) :
  In (name, column) numeric_fields ->
  (In (negative_prefix ++ name)%string
      (warnings (validate_transformed_data str_repr df)) <->
   exists r, In r df /\ F64.ltb (column r) F64.zero = true) /\
  (In (empty_prefix ++ name)%string
      (warnings (validate_transformed_data str_repr df)) <->
   exists r, In r df /\ F64.is_nan (column r) = true).
Proof.
  intros Hin. rewrite validate_warnings, !In_check_numeric.
  rewrite <- !existsb_exists.
  assert (Hdup : forall w,
             PyStr.startswith "Some products have " w = true ->
             ~ In w (duplicate_warnings str_repr df)).
  { intros w Hw. unfold duplicate_warnings.
    destruct (existsb _ _); [|intros []].
    intros [<-|[]]. discriminate Hw. }
  split; split.
  - intros [H|(nm & cl & Hf & [[E _]|[E Hb]])].
    + exfalso. revert H. apply Hdup.
      destruct Hin as [E|[E|[E|[]]]]; inversion E; reflexivity.
    + exfalso. destruct Hf as [E'|[E'|[E'|[]]]]; inversion E'; subst;
        discriminate E.
    + destruct Hin as [E0|[E0|[E0|[]]]]; inversion E0; subst;
        destruct Hf as [E'|[E'|[E'|[]]]]; inversion E'; subst;
        first [exact Hb | discriminate E].
  - intros H. right. exists name, column. auto.
  - intros [H|(nm & cl & Hf & [[E Hb]|[E _]])].
    + exfalso. revert H. apply Hdup.
      destruct Hin as [E|[E|[E|[]]]]; inversion E; reflexivity.
    + destruct Hin as [E0|[E0|[E0|[]]]]; inversion E0; subst;
        destruct Hf as [E'|[E'|[E'|[]]]]; inversion E'; subst;
        first [exact Hb | discriminate E].
    + exfalso. destruct Hf as [E'|[E'|[E'|[]]]]; inversion E'; subst;
        discriminate E.
  - intros H. right. exists name, column. auto.
Qed.

(** *** Text cleaning again *)

(** X15: text-clean is idempotent: cleaning a cleaned text gives it back. *)
Theorem clean_text_idempotent (c : cell) :
  clean_text float_repr (Text (clean_text float_repr c))
  = clean_text float_repr c.
Proof.
  unfold clean_text. cbn [py_str].
  destruct (String.eqb_spec (PyStr.strip (py_str float_repr c)) "nan") as [E|E].
  - reflexivity.
  - rewrite strip_fixed.
    destruct (String.eqb_spec (PyStr.strip (py_str float_repr c)) "nan");
      [contradiction | reflexivity].
Qed.

(** X16: a cell holding nothing but whitespace cleans to the empty
    string. *)
Theorem clean_text_blank (s : string) :
  PyStr.all_space s = true -> clean_text float_repr (Text s) = ""%string.
Proof.
  intros H. unfold clean_text, PyStr.strip. cbn [py_str].
  now rewrite (lstrip_all_space s H).
Qed.

(** *** Numbers *)

(** X17: with a finite power of ten, a value is missing after
    numeric-clean exactly when [pd.to_numeric] gave a missing value:
    rounding neither loses a number nor makes one up. *)
Theorem clean_float_defined (series : list cell) (decimal_places : Z) :
  is_finite (F64.power_of_ten (Z.abs decimal_places)) = true ->
  map F64.is_nan (_clean_float_data to_double series decimal_places)
  = map (fun c => F64.is_nan (to_numeric to_double c)) series.
Proof.
  intros H. unfold _clean_float_data. rewrite !map_map.
  apply map_ext. intros c. now apply round_defined.
Qed.

(** X18: [_format_currency] gives 0.0 for an infinite value, and for a
    finite nonzero one whose digits down to the last place kept are more
    than the 28 of the decimal context. *)
Theorem format_currency_out_of_range (value : cell) (decimal_places : Z) :
  isna value = false ->
  (forall s,
      PyDecimal.of_string (py_str float_repr value) = Ok (PyDecimal.Infinity s) ->
      _format_currency float_repr value decimal_places = F64.zero) /\
  (forall s c x,
      PyDecimal.of_string (py_str float_repr value)
      = Ok (PyDecimal.Finite s c x) ->
      c <> 0%N ->
      PyDecimal.prec < PyDecimal.ndigits c + x + Z.max 0 decimal_places ->
      _format_currency float_repr value decimal_places = F64.zero).
Proof.
  intros Hna. unfold _format_currency, currency_conversion. rewrite Hna.
  split.
  - intros s ->. reflexivity.
  - intros s c x -> Hc Hbig. cbn [bind]. unfold PyDecimal.quantize_half_up.
    destruct (negb _); [reflexivity|].
    destruct (N.eqb_spec c 0); [contradiction|].
    destruct (_ <? _); [reflexivity|].
    destruct (Z.ltb_spec PyDecimal.prec
                (PyDecimal.adjusted c x - - Z.max 0 decimal_places + 1));
      [reflexivity|].
    unfold PyDecimal.adjusted in *. lia.
Qed.

(** X21: [_format_currency] returns a missing value exactly for a value
    that is not missing itself and whose text spells a quiet NaN; every
    other result is a number. *)
Theorem format_currency_nan (value : cell) (decimal_places : Z) :
  F64.is_nan (_format_currency float_repr value decimal_places) = true <->
  isna value = false /\
  exists s,
    PyDecimal.of_string (py_str float_repr value) = Ok (PyDecimal.NaN s false).
Proof.
  unfold _format_currency, currency_conversion.
  destruct (isna value); [split; [discriminate | intros [H _]; discriminate]|].
  destruct (PyDecimal.of_string (py_str float_repr value)) as [d|e];
    cbn [bind].
  - destruct d as [s c x|s|s [|]].
    + destruct (PyDecimal.quantize_half_up (PyDecimal.Finite s c x) _)
        as [q|e] eqn:Eq; cbn [bind].
      * apply quantize_finite in Eq. destruct Eq as (n & -> & _).
        cbn [PyDecimal.to_float]. rewrite of_decimal_defined.
        split; [discriminate | intros [_ (s' & H)]; discriminate].
      * split; [discriminate | intros [_ (s' & H)]; discriminate].
    + split; [discriminate | intros [_ (s' & H)]; discriminate].
    + split; [discriminate | intros [_ (s' & H)]; discriminate].
    + split; [intros _; split; [reflexivity | now exists s] | reflexivity].
  - split; [discriminate | intros [_ (s' & H)]; discriminate].
Qed.

End Extras.

(** ** The further theorems at concrete tables *)

Lemma transform_length_witness :
  transform Reference.float_repr Reference.to_double example_df example_mapping
  = Ok example_out /\
  (List.length example_out <= List.length (rows example_df))%nat.
Proof.
  split; [reflexivity|].
  apply (transform_length Reference.float_repr Reference.to_double
           example_df example_mapping example_out).
  reflexivity.
Defined.

Lemma transform_without_required_field_witness :
  unmapped (ncols example_df) [(1, "name"%string)] "internal_reference" /\
  exists out,
    transform Reference.float_repr Reference.to_double example_df
      [(1, "name"%string)] = Ok out /\
    out = [].
Proof.
  assert (H : unmapped (ncols example_df) [(1, "name"%string)]
                "internal_reference").
  { intros i [E|[]]. discriminate E. }
  split; [exact H|]. exists []. split; [reflexivity|].
  apply (transform_without_required_field
           Reference.float_repr Reference.to_double example_df
           [(1, "name"%string)] []); [now left | reflexivity].
Defined.

Lemma transform_text_columns_witness :
  Forall (fun r => forall col, get_text col r = Some ""%string) example_out.
Proof.
  apply (transform_text_columns Reference.float_repr Reference.to_double
           example_df example_mapping example_out).
  reflexivity.
Defined.

Lemma transform_ignores_unknown_key_witness :
  ~ In "barcode"%string field_keys /\
  transform Reference.float_repr Reference.to_double example_df
    ([(0, "internal_reference"%string); (1, "name"%string)]
       ++ [(2, "barcode"%string)])
  = transform Reference.float_repr Reference.to_double example_df
      ([(0, "internal_reference"%string); (1, "name"%string)] ++ []).
Proof.
  assert (H : ~ In "barcode"%string field_keys).
  { simpl. intros [E|[E|[E|[E|[E|[]]]]]]; discriminate E. }
  split; [exact H|].
  apply (transform_ignores_unknown_key Reference.float_repr Reference.to_double
           example_df 2 "barcode"
           [(0, "internal_reference"%string); (1, "name"%string)] [] H).
  simpl. lia.
Defined.

Lemma transform_negative_index_wraps_witness :
  transform Reference.float_repr Reference.to_double example_df
    ([(0, "internal_reference"%string); (1, "name"%string)]
       ++ [(-1, "list_price"%string)])
  = transform Reference.float_repr Reference.to_double example_df
      ([(0, "internal_reference"%string); (1, "name"%string)]
         ++ [(-1 + Z.of_nat (ncols example_df), "list_price"%string)]).
Proof.
  apply (transform_negative_index_wraps
           Reference.float_repr Reference.to_double example_df (-1)
           "list_price" [(0, "internal_reference"%string); (1, "name"%string)] []).
  simpl. lia.
Defined.

Lemma transform_index_below_raises_witness :
  transform Reference.float_repr Reference.to_double example_df
    [(0, "internal_reference"%string); (-4, "colour"%string)]
  = Raise IndexError.
Proof.
  apply (transform_index_below_raises
           Reference.float_repr Reference.to_double example_df (-4) "colour").
  - simpl. auto.
  - simpl. lia.
Defined.

Lemma transform_later_item_overwrites_witness :
  transform Reference.float_repr Reference.to_double example_df
    ([(0, "internal_reference"%string)]
       ++ (2, "name"%string) :: [(-1, "list_price"%string)]
       ++ (1, "name"%string) :: [])
  = transform Reference.float_repr Reference.to_double example_df
      ([(0, "internal_reference"%string)]
         ++ [(-1, "list_price"%string)] ++ (1, "name"%string) :: []).
Proof.
  apply (transform_later_item_overwrites
           Reference.float_repr Reference.to_double example_df 2 1 "name"
           [(0, "internal_reference"%string)] [(-1, "list_price"%string)] []);
    simpl; lia.
Defined.

Lemma transform_ignores_index_beyond_witness :
  transform Reference.float_repr Reference.to_double example_df
    (example_mapping ++ [(3, "name"%string)])
  = transform Reference.float_repr Reference.to_double example_df
      (example_mapping ++ []).
Proof.
  apply (transform_ignores_index_beyond
           Reference.float_repr Reference.to_double example_df 3 "name"
           example_mapping []).
  simpl. lia.
Defined.

Lemma validate_after_transform_witness :
  errors (validate_transformed_data Reference.str_repr example_out) = [] /\
  valid (validate_transformed_data Reference.str_repr example_out) = true /\
  filter (PyStr.startswith empty_prefix)
         (warnings (validate_transformed_data Reference.str_repr example_out))
  = [].
Proof.
  apply (validate_after_transform
           Reference.float_repr Reference.to_double Reference.str_repr
           example_df example_mapping example_out).
  reflexivity.
Defined.

Lemma validate_no_duplicates_witness :
  NoDup (map Internal_Reference distinct_df) /\
  filter (PyStr.startswith duplicate_prefix)
         (warnings (validate_transformed_data Reference.str_repr distinct_df))
  = [].
Proof.
  assert (H : NoDup (map Internal_Reference distinct_df)).
  { simpl. repeat constructor; simpl; intros H;
      repeat (destruct H as [H|H]; [discriminate H|]); exact H. }
  split; [exact H|].
  exact (validate_no_duplicates Reference.str_repr distinct_df H).
Defined.

Lemma validate_numeric_warnings_witness :
  In ("Cost"%string, Cost) numeric_fields /\
  (In "Some products have negative Cost"%string
      (warnings (validate_transformed_data Reference.str_repr example_out)) <->
   exists r, In r example_out /\ F64.ltb (Cost r) F64.zero = true).
Proof.
  assert (H : In ("Cost"%string, Cost) numeric_fields) by (simpl; auto).
  split; [exact H|].
  exact (proj1 (validate_numeric_warnings Reference.str_repr example_out
                  "Cost" Cost H)).
Defined.

Lemma clean_text_blank_witness :
  PyStr.all_space "   " = true /\
  clean_text Reference.float_repr (Text "   ") = ""%string.
Proof.
  split; [reflexivity|].
  apply (clean_text_blank Reference.float_repr "   "). reflexivity.
Defined.

Lemma clean_float_defined_witness :
  is_finite (F64.power_of_ten (Z.abs 2)) = true /\
  map F64.is_nan
      (_clean_float_data Reference.to_double [Text "19.999"; Text "n/a"; Missing] 2)
  = map (fun c => F64.is_nan (to_numeric Reference.to_double c))
        [Text "19.999"; Text "n/a"; Missing].
Proof.
  split; [reflexivity|].
  apply (clean_float_defined Reference.to_double
           [Text "19.999"; Text "n/a"; Missing] 2).
  reflexivity.
Defined.

Lemma format_currency_out_of_range_witness :
  isna (Text "1e30") = false /\
  _format_currency Reference.float_repr (Text "1e30") 2 = F64.zero /\
  _format_currency Reference.float_repr (Text "-inf") 2 = F64.zero.
Proof.
  split; [reflexivity|]. split.
  - apply (proj2 (format_currency_out_of_range
                    Reference.float_repr (Text "1e30") 2 eq_refl)
             false 1%N 30).
    + reflexivity.
    + discriminate.
    + vm_compute. reflexivity.
  - apply (proj1 (format_currency_out_of_range
                    Reference.float_repr (Text "-inf") 2 eq_refl) true).
    reflexivity.
Defined.
